(** * Update-check endpoint: platform resolver and update decision handler

    A shallow embedding of [src/api/update/index.js].  JavaScript values are
    modelled by the types the code can actually see them at:

    - a query parameter ([URLSearchParams.get]) is [option string], [None]
      being [null];
    - a destructured array slot is [option string], [None] being [undefined];
    - the four [Set] constants are [gset string];
    - the [res] object is a record that the handler mutates through a small
      state-and-exception monad. *)

From Stdlib Require Import ZArith Ascii String List.
From stdpp Require Import base strings gmap list.

Local Open Scope string_scope.
Set Warnings "-register-all".

(** ** Constants (index.js, lines 17-38) *)

Definition INSIDER : string := "insider".
Definition STABLE : string := "stable".

Definition DARWIN : string := "darwin".
Definition WINDOWS : string := "win32".
Definition LINUX : string := "linux".

Definition ARM64 : string := "arm64".
Definition IA32 : string := "ia32".
Definition X64 : string := "x64".

Definition SYSTEM : string := "system".
Definition ARCHIVE : string := "archive".
Definition USER : string := "user".

Definition QUALITIES : gset string := {[ INSIDER; STABLE ]}.
Definition OS : gset string := {[ DARWIN; LINUX; WINDOWS ]}.
Definition TYPES : gset string := {[ ARCHIVE; USER; SYSTEM ]}.
Definition ARCH : gset string := {[ ARM64; IA32; X64 ]}.

Definition VERSION_BASE_URL : string :=
  "https://raw.githubusercontent.com/aphrcwaro/datasuite_public/main".

(** ** JavaScript helpers used by the resolver *)

(** [Set.prototype.has] on a string key. *)
Definition has (s : gset string) (x : string) : bool := bool_decide (x ∈ s).

(** [has] applied to a possibly-[undefined] slot: [undefined] is in no set. *)
Definition has_slot (s : gset string) (x : option string) : bool :=
  match x with
  | Some v => has s v
  | None => false
  end.

(** Truthiness of a value that is either a string or [null]/[undefined]:
    only a non-empty string is truthy. *)
Definition truthy (x : option string) : bool :=
  match x with
  | Some (String _ _) => true
  | _ => false
  end.

(** [String.prototype.split] with a one-character separator.  The result is
    never empty: the empty string splits into one empty token. *)
Fixpoint split (sep : ascii) (s : string) : list string :=
  match s with
  | EmptyString => [EmptyString]
  | String c rest =>
      if Ascii.eqb c sep then EmptyString :: split sep rest
      else match split sep rest with
           | tok :: toks => String c tok :: toks
           | [] => [String c EmptyString]
           end
  end.

(** ** Platform descriptor (the object literal returned on line 101) *)

Record Descriptor : Type := mkDescriptor {
  quality : string;
  os : string;
  arch : string;
  type : option string
}.

(** ** validateInput (index.js, lines 71-102)

    [None] is the [false] the source returns on invalid input.  Both
    arguments come from [URLSearchParams.get], so a truthy [platform] is
    always a string and the [typeof] test of line 73 adds nothing.  The local
    variables [arch] and [type] are reassigned by the Windows and macOS
    branches; here each branch yields the pair it leaves them at. *)
Definition validateInput (platform quality : option string) : option Descriptor :=
  if negb (truthy quality) || negb (has_slot QUALITIES quality) then None else
  if negb (truthy platform) then None else
  match platform, quality with
  | Some p, Some q =>
      let tokens := split "-" p in
      let os0 := tokens !! 0%nat in
      let arch0 := tokens !! 1%nat in
      let type0 := tokens !! 2%nat in
      if negb (has_slot OS os0) then None else
      match os0 with
      | None => None
      | Some o =>
          let resolved : option (option string * option string) :=
            if String.eqb o WINDOWS then
              let '(arch1, type1) :=
                if negb (truthy type0) then
                  if negb (truthy arch0) then (Some IA32, Some SYSTEM)
                  else if has_slot TYPES arch0 then (Some IA32, arch0)
                  else (arch0, Some SYSTEM)
                else (arch0, type0) in
              if negb (has_slot TYPES type1) then None else Some (arch1, type1)
            else if String.eqb o DARWIN then
              Some (if negb (truthy arch0) then Some X64 else arch0, type0)
            else Some (arch0, type0) in
          match resolved with
          | None => None
          | Some (arch1, type1) =>
              if negb (has_slot ARCH arch1) then None else
              match arch1 with
              | Some a => Some {| quality := q; os := o; arch := a; type := type1 |}
              | None => None
              end
          end
      end
  | _, _ => None
  end.

(** The Windows rows of the resolver's decision table, written down from the
    specification (section 4.1, step 5) for comparison with [validateInput]:
    [win32_defaulted] is the outcome when defaulting applies, given the
    arch-position token; [win32_explicit] is the outcome when the arch and
    type tokens are taken as they are. *)
Definition win32_defaulted (q : string) (arch0 : option string) : option Descriptor :=
  match arch0 with
  | None | Some EmptyString =>
      Some {| quality := q; os := WINDOWS; arch := IA32; type := Some SYSTEM |}
  | Some a =>
      if has TYPES a
      then Some {| quality := q; os := WINDOWS; arch := IA32; type := Some a |}
      else if has ARCH a
      then Some {| quality := q; os := WINDOWS; arch := a; type := Some SYSTEM |}
      else None
  end.

Definition win32_explicit (q : string) (arch0 : option string) (t : string)
  : option Descriptor :=
  match arch0 with
  | Some a =>
      if has TYPES t && has ARCH a
      then Some {| quality := q; os := WINDOWS; arch := a; type := Some t |}
      else None
  | None => None
  end.

(** ** JSON values

    What [response.json()] resolves to, and what [JSON.stringify] consumes.
    A number is a double; it is carried as the text [JSON.stringify] renders
    for it, so both zeros are ["0"] and no arithmetic on doubles is needed.
    An object lists its own properties in enumeration order.  A string is
    Unicode text held as UTF-8 bytes, like every other string of the model;
    a JavaScript string with an unpaired surrogate, which [JSON.stringify]
    would write as a [\udXXX] escape, is not text and has no counterpart
    here. *)
Inductive JSON : Type :=
  | JNull
  | JBool (b : bool)
  | JNum (text : string)
  | JStr (s : string)
  | JArr (items : list JSON)
  | JObj (fields : list (string * JSON)).

(** The [typeof] operator. *)
Definition typeof (j : JSON) : string :=
  match j with
  | JNull => "object"
  | JBool _ => "boolean"
  | JNum _ => "number"
  | JStr _ => "string"
  | JArr _ => "object"
  | JObj _ => "object"
  end.

(** [ToBoolean]: [null], [false], zero and the empty string are falsy. *)
Definition truthy_json (j : JSON) : bool :=
  match j with
  | JNull => false
  | JBool b => b
  | JNum text => negb (String.eqb text "0")
  | JStr s => truthy (Some s)
  | JArr _ => true
  | JObj _ => true
  end.

(** Reading a named (non-index) property.  [None] is [undefined]; the outer
    [None] is the [TypeError] raised when reading a property of [null].
    Arrays, strings, numbers and booleans have no own or inherited property
    called [version], the only name the handler reads. *)
Definition get_prop (j : JSON) (name : string) : option (option JSON) :=
  match j with
  | JNull => None
  | JObj fields =>
      Some (snd <$> List.find (fun kv => String.eqb (fst kv) name) fields)
  | _ => Some None
  end.

(** [commit === latest.version], with [commit] a string or [null] and the
    right-hand side a JSON value or [undefined]. *)
Definition strict_eq (commit : option string) (v : option JSON) : bool :=
  match commit, v with
  | Some c, Some (JStr s) => String.eqb c s
  | None, Some JNull => true
  | _, _ => false
  end.

(** *** JSON.stringify: the text *)

Definition dquote : ascii := "034"%char.
Definition backslash : ascii := "092"%char.

Definition hex_digit (n : nat) : ascii :=
  match n with
  | 0 => "0" | 1 => "1" | 2 => "2" | 3 => "3" | 4 => "4"
  | 5 => "5" | 6 => "6" | 7 => "7" | 8 => "8" | 9 => "9"
  | 10 => "a" | 11 => "b" | 12 => "c" | 13 => "d" | 14 => "e"
  | _ => "f"
  end%char.

(** One character of [QuoteJSONString].  Strings are held as UTF-8 bytes, so
    every byte from 0x80 up belongs to a code point that is copied as is. *)
Definition escape_char (c : ascii) : string :=
  let n := nat_of_ascii c in
  if Ascii.eqb c dquote then String backslash (String dquote EmptyString)
  else if Ascii.eqb c backslash then String backslash (String backslash EmptyString)
  else if Nat.eqb n 8 then String backslash "b"
  else if Nat.eqb n 9 then String backslash "t"
  else if Nat.eqb n 10 then String backslash "n"
  else if Nat.eqb n 12 then String backslash "f"
  else if Nat.eqb n 13 then String backslash "r"
  else if Nat.ltb n 32 then
    String backslash
      ("u00" +:+ String (hex_digit (n / 16)) (String (hex_digit (n mod 16)) EmptyString))
  else String c EmptyString.

Fixpoint escape (s : string) : string :=
  match s with
  | EmptyString => EmptyString
  | String c rest => escape_char c +:+ escape rest
  end.

Definition quote (s : string) : string :=
  String dquote (escape s +:+ String dquote EmptyString).

Fixpoint JSON_text (j : JSON) : string :=
  match j with
  | JNull => "null"
  | JBool true => "true"
  | JBool false => "false"
  | JNum text => text
  | JStr s => quote s
  | JArr items => "[" +:+ String.concat "," (List.map JSON_text items) +:+ "]"
  | JObj fields =>
      "{" +:+ String.concat ","
                (List.map (fun kv => let '(k, v) := kv in
                                     quote k +:+ ":" +:+ JSON_text v) fields)
          +:+ "}"
  end.

(** How deep a value nests arrays and objects; 0 for null, booleans, numbers
    and strings. *)
Fixpoint nesting (j : JSON) : nat :=
  match j with
  | JArr items => S (list_max (List.map nesting items))
  | JObj fields =>
      S (list_max (List.map (fun kv => let '(_, v) := kv in nesting v) fields))
  | _ => 0
  end.

(** [JSON.stringify].  The serialiser recurses once per level of nesting, and
    the engine raises a [RangeError] when its stack runs out: [None] is that
    exception, otherwise the result is the text above.  [spare] is the number
    of levels the engine can descend below a flat object, so that the flat
    error payloads of lines 120 and 154 are always serialised. *)
Definition JSON_stringify (spare : nat) (j : JSON) : option string :=
  if (nesting j <=? S spare)%nat then Some (JSON_text j) else None.

(** *** Reading the text back

    What a client does with the body of a 200 response: a decoder for the
    compact texts [JSON.stringify] emits (no insignificant white space).  A
    number is kept as it is written, which is its rendering when the text
    comes from [JSON.stringify]; [\u] escapes are read for the characters
    [JSON.stringify] writes that way, those below 0x80. *)

(** The characters a JSON number is written with. *)
Definition is_number_char (c : ascii) : bool :=
  let n := nat_of_ascii c in
  (48 <=? n)%nat && (n <=? 57)%nat
  || Ascii.eqb c "+" || Ascii.eqb c "-" || Ascii.eqb c "."
  || Ascii.eqb c "e" || Ascii.eqb c "E".

(** Every character of the string passes the test. *)
Fixpoint all_chars (p : ascii -> bool) (s : string) : bool :=
  match s with
  | EmptyString => true
  | String c rest => p c && all_chars p rest
  end.

(** The longest prefix made of number characters, and what follows it. *)
Fixpoint span_number (s : string) : string * string :=
  match s with
  | EmptyString => (EmptyString, EmptyString)
  | String c rest =>
      if is_number_char c
      then let '(digits, tail) := span_number rest in (String c digits, tail)
      else (EmptyString, s)
  end.

(** The value of a hexadecimal digit, in either case. *)
Definition hex_value (c : ascii) : option nat :=
  let n := nat_of_ascii c in
  if (48 <=? n)%nat && (n <=? 57)%nat then Some (n - 48)%nat
  else if (97 <=? n)%nat && (n <=? 102)%nat then Some (n - 87)%nat
  else if (65 <=? n)%nat && (n <=? 70)%nat then Some (n - 55)%nat
  else None.

(** The character a two-character escape stands for. *)
Definition unescape (e : ascii) : option ascii :=
  if Ascii.eqb e dquote then Some dquote
  else if Ascii.eqb e backslash then Some backslash
  else if Ascii.eqb e "/" then Some "/"%char
  else if Ascii.eqb e "b" then Some "008"%char
  else if Ascii.eqb e "t" then Some "009"%char
  else if Ascii.eqb e "n" then Some "010"%char
  else if Ascii.eqb e "f" then Some "012"%char
  else if Ascii.eqb e "r" then Some "013"%char
  else None.

(** The inside of a string literal, from after the opening quote: the
    decoded string and the text after the closing quote.  A raw control
    character is refused, as [JSON.parse] does. *)
Fixpoint parse_chars (s : string) : option (string * string) :=
  match s with
  | EmptyString => None
  | String c rest =>
      if Ascii.eqb c dquote then Some (EmptyString, rest)
      else if Ascii.eqb c backslash then
        match rest with
        | EmptyString => None
        | String e rest1 =>
            if Ascii.eqb e "u" then
              match rest1 with
              | String h1 (String h2 (String h3 (String h4 rest2))) =>
                  match hex_value h1, hex_value h2, hex_value h3, hex_value h4 with
                  | Some d1, Some d2, Some d3, Some d4 =>
                      let n := (((d1 * 16 + d2) * 16 + d3) * 16 + d4)%nat in
                      if (n <? 128)%nat then
                        match parse_chars rest2 with
                        | Some (str, tail) => Some (String (ascii_of_nat n) str, tail)
                        | None => None
                        end
                      else None
                  | _, _, _, _ => None
                  end
              | _ => None
              end
            else
              match unescape e with
              | Some c' =>
                  match parse_chars rest1 with
                  | Some (str, tail) => Some (String c' str, tail)
                  | None => None
                  end
              | None => None
              end
        end
      else if (nat_of_ascii c <? 32)%nat then None
      else
        match parse_chars rest with
        | Some (str, tail) => Some (String c str, tail)
        | None => None
        end
  end.

(** What is left of [s] after the prefix [p], if it starts with it. *)
Fixpoint strip_prefix (p s : string) : option string :=
  match p, s with
  | EmptyString, _ => Some s
  | String a p', String b s' => if Ascii.eqb a b then strip_prefix p' s' else None
  | String _ _, EmptyString => None
  end.

(** One value, then the elements of an array up to its closing bracket and
    the members of an object up to its closing brace; each returns what it
    read and the text that follows.  The fuel bounds the recursion; the
    length of the text is enough ([JSON_parse_text]). *)
Fixpoint parse_value (fuel : nat) (s : string) {struct fuel} : option (JSON * string) :=
  match fuel with
  | O => None
  | S fuel =>
      match s with
      | EmptyString => None
      | String c rest =>
          if is_number_char c then
            let '(digits, tail) := span_number s in Some (JNum digits, tail)
          else if Ascii.eqb c dquote then
            match parse_chars rest with
            | Some (str, tail) => Some (JStr str, tail)
            | None => None
            end
          else if Ascii.eqb c "[" then
            match strip_prefix "]" rest with
            | Some tail => Some (JArr [], tail)
            | None =>
                match parse_elements fuel rest with
                | Some (items, tail) => Some (JArr items, tail)
                | None => None
                end
            end
          else if Ascii.eqb c "{" then
            match strip_prefix "}" rest with
            | Some tail => Some (JObj [], tail)
            | None =>
                match parse_members fuel rest with
                | Some (fields, tail) => Some (JObj fields, tail)
                | None => None
                end
            end
          else if Ascii.eqb c "n" then
            match strip_prefix "ull" rest with
            | Some tail => Some (JNull, tail)
            | None => None
            end
          else if Ascii.eqb c "t" then
            match strip_prefix "rue" rest with
            | Some tail => Some (JBool true, tail)
            | None => None
            end
          else if Ascii.eqb c "f" then
            match strip_prefix "alse" rest with
            | Some tail => Some (JBool false, tail)
            | None => None
            end
          else None
      end
  end
with parse_elements (fuel : nat) (s : string) {struct fuel}
  : option (list JSON * string) :=
  match fuel with
  | O => None
  | S fuel =>
      match parse_value fuel s with
      | Some (v, String c rest) =>
          if Ascii.eqb c "," then
            match parse_elements fuel rest with
            | Some (vs, tail) => Some (v :: vs, tail)
            | None => None
            end
          else if Ascii.eqb c "]" then Some ([v], rest)
          else None
      | _ => None
      end
  end
with parse_members (fuel : nat) (s : string) {struct fuel}
  : option (list (string * JSON) * string) :=
  match fuel with
  | O => None
  | S fuel =>
      match s with
      | String q rest =>
          if Ascii.eqb q dquote then
            match parse_chars rest with
            | Some (key, String colon rest1) =>
                if Ascii.eqb colon ":" then
                  match parse_value fuel rest1 with
                  | Some (v, String c rest2) =>
                      if Ascii.eqb c "," then
                        match parse_members fuel rest2 with
                        | Some (kvs, tail) => Some ((key, v) :: kvs, tail)
                        | None => None
                        end
                      else if Ascii.eqb c "}" then Some ([(key, v)], rest2)
                      else None
                  | _ => None
                  end
                else None
            | _ => None
            end
          else None
      | EmptyString => None
      end
  end.

(** A whole text holding exactly one value. *)
Definition JSON_parse (text : string) : option JSON :=
  match parse_value (String.length text) text with
  | Some (j, EmptyString) => Some j
  | _ => None
  end.

(** Every number in the value is written as a number: a non-empty string of
    number characters, as [JSON.stringify] renders any double. *)
Fixpoint well_formed (j : JSON) : bool :=
  match j with
  | JNum text => negb (String.eqb text "") && all_chars is_number_char text
  | JArr items => forallb well_formed items
  | JObj fields => forallb (fun kv => let '(_, v) := kv in well_formed v) fields
  | _ => true
  end.

(** ** The world the handler runs in *)

(** The [res] object: what [statusCode], [setHeader] and [end] leave in it. *)
Record Response : Type := mkResponse {
  statusCode : Z;
  headers : gmap string string;
  body : string;
  finished : bool
}.

(** What [fetch] followed by [response.json()] can do. *)
Inductive JsonBody : Type :=
  | Malformed                 (* response.json() rejects *)
  | Parsed (data : JSON).     (* response.json() resolves to data *)

Inductive FetchOutcome : Type :=
  | NetworkFault                                  (* fetch rejects *)
  | HttpResponse (status : Z) (payload : JsonBody).

(** The deployment: the [NODE_ENV] variable, the remote store behind
    [fetch], a function of the URL and the request headers, and the stack the
    engine leaves to [JSON.stringify] (see [JSON_stringify]). *)
Record Env : Type := mkEnv {
  NODE_ENV : option string;
  fetch : string -> list (string * string) -> FetchOutcome;
  stack_spare : nat
}.

(** Mutable state: the response under construction, the URLs fetched so far
    and the lines written with [console.error]. *)
Record World : Type := mkWorld {
  res : Response;
  requests : list string;
  console : list string
}.

(** The inbound request.  [searchParams] is the outcome of
    [new URL(req.url, ...)]: [None] when the constructor (or the read of
    [req.headers.host]) throws, otherwise the query pairs in order. *)
Record Request : Type := mkRequest {
  method : option string;
  searchParams : option (list (string * string))
}.

(** *** State and exceptions *)

Inductive Outcome (A : Type) : Type :=
  | Returned (a : A)
  | Thrown.
Arguments Returned {A} a.
Arguments Thrown {A}.

Definition M (A : Type) : Type := World -> Outcome A * World.

Definition ret {A} (a : A) : M A := fun w => (Returned a, w).

Definition throw {A} : M A := fun w => (Thrown, w).

Definition bind {A B} (m : M A) (k : A -> M B) : M B :=
  fun w =>
    match m w with
    | (Returned a, w') => k a w'
    | (Thrown, w') => (Thrown, w')
    end.

Definition try_catch {A} (m : M A) (handle : M A) : M A :=
  fun w =>
    match m w with
    | (Returned a, w') => (Returned a, w')
    | (Thrown, w') => handle w'
    end.

Notation "'let*' x ':=' m 'in' k" := (bind m (fun x => k))
  (at level 10, x name, m at level 100, k at level 200).
Notation "m '>>' k" := (bind m (fun _ => k))
  (at level 100, k at level 200, right associativity).

Definition update_res (f : Response -> Response) : M unit :=
  fun w => (Returned tt,
            {| res := f (res w); requests := requests w; console := console w |}).

(** [res.statusCode = code] *)
Definition setStatus (code : Z) : M unit :=
  update_res (fun r => {| statusCode := code; headers := headers r;
                          body := body r; finished := finished r |}).

(** [res.setHeader(name, value)] *)
Definition setHeader (name value : string) : M unit :=
  update_res (fun r => {| statusCode := statusCode r;
                          headers := <[name := value]> (headers r);
                          body := body r; finished := finished r |}).

(** [res.end(data)]; [res.end()] is [end_ ""]. *)
Definition end_ (data : string) : M unit :=
  update_res (fun r => {| statusCode := statusCode r; headers := headers r;
                          body := body r +:+ data; finished := true |}).

(** [console.error(line)] *)
Definition console_error (line : string) : M unit :=
  fun w => (Returned tt,
            {| res := res w; requests := requests w;
               console := console w ++ [line] |}).

(** [await fetch(url, { headers })]: records the URL, then rejects or
    resolves as the remote store dictates. *)
Definition do_fetch (env : Env) (url : string) (hdrs : list (string * string))
  : M (Z * JsonBody) :=
  fun w =>
    let w' := {| res := res w; requests := requests w ++ [url];
                 console := console w |} in
    match fetch env url hdrs with
    | NetworkFault => (Thrown, w')
    | HttpResponse status payload => (Returned (status, payload), w')
    end.

(** [response.ok] *)
Definition ok (status : Z) : bool := (200 <=? status)%Z && (status <=? 299)%Z.

(** [params.get(name)]: the first value under that name, or [null]. *)
Definition get (params : list (string * string)) (name : string) : option string :=
  snd <$> List.find (fun kv => String.eqb (fst kv) name) params.

(** ** buildVersionUrl (index.js, lines 41-45) *)
Definition buildVersionUrl (input : Descriptor) : string :=
  let path := quality input +:+ "/" +:+ os input +:+ "/" +:+ arch input in
  let path := if truthy (type input)
              then path +:+ "/" +:+ default "" (type input)
              else path in
  VERSION_BASE_URL +:+ "/" +:+ path +:+ "/latest.json".

(** ** getLatestJSON (index.js, lines 47-68)

    Returns the record, or [JNull] for the source's [null]. *)
Definition getLatestJSON (env : Env) (input : Descriptor) : M JSON :=
  let url := buildVersionUrl input in
  try_catch
    (let* response := do_fetch env url [("Accept", "application/json")] in
     let '(status, payload) := response in
     if negb (ok status) then ret JNull
     else
       let data := match payload with
                   | Malformed => JNull        (* .catch(() => null) *)
                   | Parsed d => d
                   end in
       if negb (truthy_json data) || negb (String.eqb (typeof data) "object")
       then ret JNull
       else ret data)
    (ret JNull).

(** ** sendNoContent and sendJson (index.js, lines 104-113) *)
Definition sendNoContent : M unit :=
  setStatus 204 >> end_ "".

(** The argument of [res.end] is evaluated first: when [JSON.stringify]
    throws, the status and the header are already set and [end] is not
    called. *)
Definition sendJson (env : Env) (code : Z) (payload : JSON) : M unit :=
  setStatus code >>
  setHeader "Content-Type" "application/json; charset=utf-8" >>
  match JSON_stringify (stack_spare env) payload with
  | Some text => end_ text
  | None => throw
  end.

(** ** handler (index.js, lines 115-156) *)
Definition handler (env : Env) (req : Request) : M unit :=
  try_catch
    (if truthy (method req) && negb (bool_decide (method req = Some "GET")) then
       setHeader "Allow" "GET" >>
       sendJson env 405 (JObj [("error", JStr "Method Not Allowed")])
     else
       let* params := match searchParams req with
                      | Some ps => ret ps
                      | None => throw
                      end in
       let platform := get params "platform" in
       let quality := get params "quality" in
       let commit := get params "commit" in
       let input := validateInput platform quality in
       match input with
       | None => setStatus 404 >> end_ ""
       | Some input =>
           let* latest := getLatestJSON env input in
           setHeader "Cache-Control" "s-maxage=14400" >>
           if negb (truthy_json latest) then sendNoContent
           else
             let* version := match get_prop latest "version" with
                             | Some v => ret v
                             | None => throw
                             end in
             if strict_eq commit version then sendNoContent
             else sendJson env 200 latest
       end)
    ((if negb (bool_decide (NODE_ENV env = Some "production"))
      then console_error "Update API error:"
      else ret tt) >>
     sendJson env 500 (JObj [("error", JStr "Internal Server Error")])).

(** A fresh [ServerResponse]: status 200, no headers, nothing written. *)
Definition fresh : World :=
  {| res := {| statusCode := 200; headers := ∅; body := ""; finished := false |};
     requests := [];
     console := [] |}.

(** The world after the handler has run on a fresh response. *)
Definition run (env : Env) (req : Request) : World := snd (handler env req fresh).

Definition respond (env : Env) (req : Request) : Response := res (run env req).

(** ** Vocabulary for the properties below *)

(** The value [getLatestJSON] hands back for each outcome of the fetch
    (lemma [getLatestJSON_returns]). *)
Definition fetched_record (o : FetchOutcome) : JSON :=
  match o with
  | NetworkFault => JNull
  | HttpResponse status payload =>
      if ok status then
        match payload with
        | Malformed => JNull
        | Parsed d =>
            if truthy_json d && String.eqb (typeof d) "object" then d else JNull
        end
      else JNull
  end.

(** [latest.version] for a truthy [latest]; [None] is [undefined]. *)
Definition version_of (latest : JSON) : option JSON :=
  default None (get_prop latest "version").

(** The request gets past the method check of line 118: its method is
    absent, empty or [GET]. *)
Definition method_allowed (req : Request) : bool :=
  negb (truthy (method req) && negb (bool_decide (method req = Some "GET"))).

Definition json_content_type : string := "application/json; charset=utf-8".

(** The six responses the handler can leave behind. *)
Definition method_not_allowed : Response :=
  {| statusCode := 405;
     headers := <["Content-Type" := json_content_type]> (<["Allow" := "GET"]> ∅);
     body := JSON_text (JObj [("error", JStr "Method Not Allowed")]);
     finished := true |}.

Definition internal_error : Response :=
  {| statusCode := 500;
     headers := <["Content-Type" := json_content_type]> ∅;
     body := JSON_text (JObj [("error", JStr "Internal Server Error")]);
     finished := true |}.

Definition not_found : Response :=
  {| statusCode := 404; headers := ∅; body := ""; finished := true |}.

Definition no_content : Response :=
  {| statusCode := 204;
     headers := <["Cache-Control" := "s-maxage=14400"]> ∅;
     body := "";
     finished := true |}.

Definition update_available (latest : JSON) : Response :=
  {| statusCode := 200;
     headers := <["Content-Type" := json_content_type]>
                  (<["Cache-Control" := "s-maxage=14400"]> ∅);
     body := JSON_text latest;
     finished := true |}.

(** The 500 sent when [JSON.stringify] throws on the record: by then the
    cache header is set, and [Content-Type] has been set twice. *)
Definition serialisation_error : Response :=
  {| statusCode := 500;
     headers := <["Content-Type" := json_content_type]>
                  (<["Content-Type" := json_content_type]>
                     (<["Cache-Control" := "s-maxage=14400"]> ∅));
     body := JSON_text (JObj [("error", JStr "Internal Server Error")]);
     finished := true |}.

(** JSON values that are not of JavaScript type object, and [null]. *)
Definition is_primitive (d : JSON) : bool :=
  match d with
  | JArr _ | JObj _ => false
  | _ => true
  end.

(** The upstream failures the handler absorbs: a network-level fault, a
    non-success status, a body that is not JSON, and a body that parses to
    [null], a boolean, a number or a string. *)
Inductive upstream_failure : FetchOutcome -> Prop :=
  | fault_network : upstream_failure NetworkFault
  | fault_status status payload :
      ok status = false -> upstream_failure (HttpResponse status payload)
  | fault_malformed status : upstream_failure (HttpResponse status Malformed)
  | fault_primitive status d :
      is_primitive d = true -> upstream_failure (HttpResponse status (Parsed d)).

(** The text [{"error":"..."}] with the given message. *)
Definition error_body (message : string) : string :=
  "{" +:+ String dquote "error" +:+ String dquote ":" +:+
  String dquote message +:+ String dquote "}".

(** A deployment and requests to evaluate the handler on. *)
Definition remote_with (o : FetchOutcome) : Env :=
  {| NODE_ENV := Some "production"; fetch := fun _ _ => o;
     stack_spare := 100000 |}.

(** A value wrapped in [n] arrays, and a record that carries one. *)
Fixpoint nest (n : nat) (j : JSON) : JSON :=
  match n with
  | O => j
  | S n => JArr [nest n j]
  end.

Definition deep_record (version : string) (n : nat) : JSON :=
  JObj [("version", JStr version); ("assets", nest n JNull)].

Definition get_request (platform quality commit : string) : Request :=
  {| method := Some "GET";
     searchParams := Some [("platform", platform); ("quality", quality);
                           ("commit", commit)] |}.

(** Whether the character occurs in the string. *)
Fixpoint contains (c : ascii) (s : string) : bool :=
  match s with
  | EmptyString => false
  | String c' rest => Ascii.eqb c' c || contains c rest
  end.

(** The platform string that spells a descriptor out in full:
    [os-arch-type], or [os-arch] when the type is [undefined]. *)
Definition platform_string (d : Descriptor) : string :=
  match type d with
  | Some t => os d +:+ "-" +:+ arch d +:+ "-" +:+ t
  | None => os d +:+ "-" +:+ arch d
  end.

(** What may follow a value in a text: the end, or a character that cannot
    continue a number. *)
Definition boundary (rest : string) : Prop :=
  match rest with
  | String c _ => is_number_char c = false
  | EmptyString => True
  end.

(** The decoder reads the text of [j] back, whatever follows it, given fuel
    for the length of the text. *)
Definition decodes (j : JSON) : Prop :=
  well_formed j = true ->
  forall fuel rest,
    (String.length (JSON_text j) <= fuel)%nat -> boundary rest ->
    parse_value fuel (JSON_text j +:+ rest) = Some (j, rest).

(** * Properties *)

(** ** Sanity checks of the embedding on literal inputs *)

Example resolve_beos :
  validateInput (Some "beos-x64") (Some "stable") = None.
Proof. vm_compute. reflexivity. Qed.

Example resolve_no_quality :
  validateInput (Some "win32-x64-user") None = None.
Proof. reflexivity. Qed.

Example split_keeps_empty_tokens :
  split "-" "a--b-" = ["a"; ""; "b"; ""].
Proof. reflexivity. Qed.

Example stringify_nested :
  JSON_text (JObj [("n", JNum "1.5"); ("l", JArr [JNull; JBool true])])
  = String "{" (String dquote ("n" +:+ String dquote (":1.5," +:+
      String dquote ("l" +:+ String dquote ":[null,true]}")))).
Proof. vm_compute. reflexivity. Qed.

(** ** Facts about [split] *)

Lemma split_nonempty sep s : split sep s <> [].
Proof.
  destruct s as [|c rest]; simpl; [discriminate|].
  destruct (Ascii.eqb c sep); [discriminate|].
  destruct (split sep rest); discriminate.
Qed.

Lemma split_app sep s extra :
  split sep (s +:+ String sep extra) = (split sep s ++ split sep extra)%list.
Proof.
  induction s as [|c rest IH]; simpl.
  - rewrite Ascii.eqb_refl. reflexivity.
  - destruct (Ascii.eqb c sep).
    + rewrite IH. reflexivity.
    + rewrite IH. pose proof (split_nonempty sep rest) as Hne.
      destruct (split sep rest); [contradiction|reflexivity].
Qed.

Lemma split_short_empty sep s :
  (2 <= length (split sep s))%nat -> truthy (Some s) = true.
Proof. destruct s; simpl; [lia|reflexivity]. Qed.

Lemma split_head_truthy sep s c t :
  split sep s !! 0%nat = Some (String c t) -> truthy (Some s) = true.
Proof. destruct s; simpl; [discriminate|reflexivity]. Qed.

(** ** Facts about string concatenation *)

Lemma string_app_String c s t : String c s +:+ t = String c (s +:+ t).
Proof. reflexivity. Qed.

Lemma string_app_nil_l s : "" +:+ s = s.
Proof. reflexivity. Qed.

Lemma string_app_assoc s t u : (s +:+ t) +:+ u = s +:+ (t +:+ u).
Proof.
  induction s as [|c s IH]; [reflexivity|].
  rewrite !string_app_String, IH. reflexivity.
Qed.

Lemma string_app_nil_r s : s +:+ "" = s.
Proof.
  induction s as [|c s IH]; [reflexivity|].
  rewrite string_app_String, IH. reflexivity.
Qed.

Lemma string_length_app s t :
  String.length (s +:+ t) = (String.length s + String.length t)%nat.
Proof. induction s as [|c s IH]; simpl; [reflexivity|]. rewrite IH. reflexivity. Qed.

(** ** Reading back what JSON.stringify writes *)

(** Induction on JSON values that reaches inside arrays and objects. *)
Lemma JSON_induction (P : JSON -> Prop) :
  P JNull -> (forall b, P (JBool b)) -> (forall text, P (JNum text)) ->
  (forall s, P (JStr s)) ->
  (forall items, Forall P items -> P (JArr items)) ->
  (forall fields, Forall (fun kv => P (snd kv)) fields -> P (JObj fields)) ->
  forall j, P j.
Proof.
  intros Hnull Hbool Hnum Hstr Harr Hobj.
  fix IH 1. intros [|b|text|s|items|fields].
  - exact Hnull.
  - apply Hbool.
  - apply Hnum.
  - apply Hstr.
  - apply Harr. induction items as [|x xs IHxs]; constructor; [apply IH|exact IHxs].
  - apply Hobj. induction fields as [|[k v] kvs IHkvs]; constructor;
      [apply IH|exact IHkvs].
Qed.

Lemma parse_chars_escape_char c tail :
  parse_chars (escape_char c +:+ tail)
  = match parse_chars tail with
    | Some (str, t) => Some (String c str, t)
    | None => None
    end.
Proof.
  destruct c as [[] [] [] [] [] [] [] []]; reflexivity.
Qed.

Lemma parse_chars_escape s rest :
  parse_chars (escape s +:+ String dquote rest) = Some (s, rest).
Proof.
  induction s as [|c s IH]; [reflexivity|].
  change (escape (String c s)) with (escape_char c +:+ escape s).
  rewrite string_app_assoc, parse_chars_escape_char, IH. reflexivity.
Qed.

Lemma span_number_text text rest :
  all_chars is_number_char text = true -> boundary rest ->
  span_number (text +:+ rest) = (text, rest).
Proof.
  intros Htext Hrest. induction text as [|c text IH].
  - destruct rest as [|c rest]; [reflexivity|].
    change ("" +:+ String c rest) with (String c rest). simpl in *.
    rewrite Hrest. reflexivity.
  - simpl in Htext. apply andb_true_iff in Htext as [Hc Htext].
    rewrite string_app_String. simpl. rewrite Hc, (IH Htext). reflexivity.
Qed.

Lemma parse_value_S fuel c rest :
  parse_value (S fuel) (String c rest)
  = if is_number_char c then
      let '(digits, tail) := span_number (String c rest) in Some (JNum digits, tail)
    else if Ascii.eqb c dquote then
      match parse_chars rest with
      | Some (str, tail) => Some (JStr str, tail)
      | None => None
      end
    else if Ascii.eqb c "[" then
      match strip_prefix "]" rest with
      | Some tail => Some (JArr [], tail)
      | None =>
          match parse_elements fuel rest with
          | Some (items, tail) => Some (JArr items, tail)
          | None => None
          end
      end
    else if Ascii.eqb c "{" then
      match strip_prefix "}" rest with
      | Some tail => Some (JObj [], tail)
      | None =>
          match parse_members fuel rest with
          | Some (fields, tail) => Some (JObj fields, tail)
          | None => None
          end
      end
    else if Ascii.eqb c "n" then
      match strip_prefix "ull" rest with
      | Some tail => Some (JNull, tail)
      | None => None
      end
    else if Ascii.eqb c "t" then
      match strip_prefix "rue" rest with
      | Some tail => Some (JBool true, tail)
      | None => None
      end
    else if Ascii.eqb c "f" then
      match strip_prefix "alse" rest with
      | Some tail => Some (JBool false, tail)
      | None => None
      end
    else None.
Proof. reflexivity. Qed.

Lemma parse_elements_S fuel s :
  parse_elements (S fuel) s
  = match parse_value fuel s with
    | Some (v, String c rest) =>
        if Ascii.eqb c "," then
          match parse_elements fuel rest with
          | Some (vs, tail) => Some (v :: vs, tail)
          | None => None
          end
        else if Ascii.eqb c "]" then Some ([v], rest)
        else None
    | _ => None
    end.
Proof. reflexivity. Qed.

Lemma parse_members_S fuel q rest :
  parse_members (S fuel) (String q rest)
  = if Ascii.eqb q dquote then
      match parse_chars rest with
      | Some (key, String colon rest1) =>
          if Ascii.eqb colon ":" then
            match parse_value fuel rest1 with
            | Some (v, String c rest2) =>
                if Ascii.eqb c "," then
                  match parse_members fuel rest2 with
                  | Some (kvs, tail) => Some ((key, v) :: kvs, tail)
                  | None => None
                  end
                else if Ascii.eqb c "}" then Some ([(key, v)], rest2)
                else None
            | _ => None
            end
          else None
      | _ => None
      end
    else None.
Proof. reflexivity. Qed.

Lemma number_char_not_closing c :
  is_number_char c = true -> Ascii.eqb "]" c = false /\ Ascii.eqb "}" c = false.
Proof.
  destruct c as [[] [] [] [] [] [] [] []]; intros H;
    try discriminate H; split; reflexivity.
Qed.

(** A JSON text never starts with a closing bracket or brace. *)
Lemma text_head j :
  well_formed j = true ->
  exists c t, JSON_text j = String c t /\
              Ascii.eqb "]" c = false /\ Ascii.eqb "}" c = false.
Proof.
  destruct j as [|[]|[|c text]|s|items|fields]; simpl; intros H;
    try discriminate H; try (eexists _, _; repeat split; reflexivity).
  apply andb_true_iff in H as [Hc _].
  destruct (number_char_not_closing c Hc) as [H1 H2].
  exists c, text. auto.
Qed.

Lemma concat_one sep (x : string) : String.concat sep [x] = x.
Proof. reflexivity. Qed.

Lemma concat_more sep (x y : string) l :
  String.concat sep (x :: y :: l) = x +:+ sep +:+ String.concat sep (y :: l).
Proof. reflexivity. Qed.

Lemma parse_elements_text items :
  Forall decodes items -> forallb well_formed items = true -> items <> [] ->
  forall fuel rest,
    (String.length (String.concat "," (List.map JSON_text items)) + 1 <= fuel)%nat ->
    parse_elements fuel
      (String.concat "," (List.map JSON_text items) +:+ String "]" rest)
    = Some (items, rest).
Proof.
  induction 1 as [|x xs Hx Hxs IH]; [congruence|].
  intros Hwf _ fuel rest Hfuel. simpl in Hwf.
  apply andb_true_iff in Hwf as [Hwfx Hwfxs].
  destruct fuel as [|fuel]; [lia|]. rewrite parse_elements_S.
  destruct xs as [|y ys].
  - simpl List.map in *. rewrite concat_one in *.
    rewrite (Hx Hwfx fuel (String "]" rest)); [reflexivity|lia|reflexivity].
  - change (List.map JSON_text (x :: y :: ys))
      with (JSON_text x :: JSON_text y :: List.map JSON_text ys) in *.
    rewrite concat_more in *.
    change (List.map JSON_text (y :: ys))
      with (JSON_text y :: List.map JSON_text ys) in IH.
    rewrite !string_length_app in Hfuel.
    change (String.length ",") with 1%nat in Hfuel.
    change (String.length ":") with 1%nat in Hfuel.
    rewrite !string_app_assoc.
    change ("," +:+ ?z) with (String "," z).
    rewrite (Hx Hwfx fuel); [|lia|reflexivity].
    change (Ascii.eqb "," ",") with true. cbv iota.
    rewrite (IH Hwfxs); [reflexivity|discriminate|lia].
Qed.

Lemma parse_members_text fields :
  Forall (fun kv => decodes (snd kv)) fields ->
  forallb (fun kv => let '(_, v) := kv in well_formed v) fields = true ->
  fields <> [] ->
  forall fuel rest,
    (String.length
       (String.concat ","
          (List.map (fun kv => let '(k, v) := kv in quote k +:+ ":" +:+ JSON_text v)
             fields)) + 1 <= fuel)%nat ->
    parse_members fuel
      (String.concat ","
         (List.map (fun kv => let '(k, v) := kv in quote k +:+ ":" +:+ JSON_text v)
            fields) +:+ String "}" rest)
    = Some (fields, rest).
Proof.
  induction 1 as [|[k v] kvs Hv Hkvs IH]; [congruence|].
  intros Hwf _ fuel rest Hfuel. simpl in Hwf, Hv.
  apply andb_true_iff in Hwf as [Hwfv Hwfkvs].
  destruct fuel as [|fuel]; [lia|].
  set (member := fun kv : string * JSON =>
                   let '(k, v) := kv in quote k +:+ ":" +:+ JSON_text v) in *.
  destruct kvs as [|kv' kvs'].
  - change (List.map member [(k, v)]) with [quote k +:+ ":" +:+ JSON_text v] in *.
    rewrite concat_one in *.
    rewrite !string_length_app in Hfuel.
    change (String.length ",") with 1%nat in Hfuel.
    change (String.length ":") with 1%nat in Hfuel.
    unfold quote. rewrite !string_app_String, !string_app_assoc.
    rewrite !string_app_String.
    rewrite parse_members_S. change (Ascii.eqb dquote dquote) with true. cbv iota.
    rewrite parse_chars_escape, ?string_app_nil_l. cbv iota.
    change (Ascii.eqb ":" ":") with true. cbv iota.
    rewrite (Hv Hwfv fuel (String "}" rest)); [reflexivity|lia|reflexivity].
  - change (List.map member ((k, v) :: kv' :: kvs'))
      with ((quote k +:+ ":" +:+ JSON_text v) :: member kv' :: List.map member kvs') in *.
    rewrite concat_more in *.
    change (member kv' :: List.map member kvs') with (List.map member (kv' :: kvs')) in *.
    rewrite !string_length_app in Hfuel.
    change (String.length ",") with 1%nat in Hfuel.
    change (String.length ":") with 1%nat in Hfuel.
    unfold quote. rewrite !string_app_String, !string_app_assoc.
    rewrite !string_app_String.
    rewrite parse_members_S. change (Ascii.eqb dquote dquote) with true. cbv iota.
    rewrite parse_chars_escape, ?string_app_nil_l. cbv iota.
    change (Ascii.eqb ":" ":") with true. cbv iota.
    change ("," +:+ ?z) with (String "," z).
    rewrite (Hv Hwfv fuel); [|lia|reflexivity].
    change (Ascii.eqb "," ",") with true. cbv iota.
    rewrite (IH Hwfkvs); [reflexivity|discriminate|lia].
Qed.

Lemma strip_prefix_fails a c t :
  Ascii.eqb a c = false -> strip_prefix (String a "") (String c t) = None.
Proof. intros H. simpl. rewrite H. reflexivity. Qed.

Lemma parse_value_text j : decodes j.
Proof.
  induction j as [|b|text|s|items IH|fields IH] using JSON_induction;
    intros Hwf fuel rest Hfuel Hrest.
  - destruct fuel as [|fuel]; [simpl in Hfuel; lia|]. reflexivity.
  - destruct fuel as [|fuel]; [destruct b; simpl in Hfuel; lia|].
    destruct b; reflexivity.
  - simpl in Hwf. apply andb_true_iff in Hwf as [Hne Hchars].
    destruct text as [|c text]; [discriminate Hne|].
    destruct fuel as [|fuel]; [simpl in Hfuel; lia|].
    change (JSON_text (JNum (String c text))) with (String c text).
    pose proof Hchars as Hc. simpl in Hc. apply andb_true_iff in Hc as [Hc _].
    rewrite string_app_String, parse_value_S, Hc.
    rewrite <- string_app_String, (span_number_text _ _ Hchars Hrest).
    reflexivity.
  - destruct fuel as [|fuel]; [simpl in Hfuel; lia|].
    change (JSON_text (JStr s)) with (String dquote (escape s +:+ String dquote "")).
    rewrite string_app_String, string_app_assoc, string_app_String,
      string_app_nil_l, parse_value_S.
    change (is_number_char dquote) with false.
    change (Ascii.eqb dquote dquote) with true. cbv iota.
    rewrite parse_chars_escape. reflexivity.
  - destruct fuel as [|fuel]; [simpl in Hfuel; lia|].
    destruct items as [|x xs]; [reflexivity|].
    change (JSON_text (JArr (x :: xs)))
      with ("[" +:+ String.concat "," (List.map JSON_text (x :: xs)) +:+ "]") in *.
    simpl in Hwf.
    rewrite !string_length_app in Hfuel.
    change (String.length "[") with 1%nat in Hfuel.
    change (String.length "]") with 1%nat in Hfuel.
    rewrite !string_app_String, !string_app_nil_l, string_app_assoc,
      string_app_String, string_app_nil_l, parse_value_S.
    change (is_number_char "[") with false.
    change (Ascii.eqb "[" dquote) with false.
    change (Ascii.eqb "[" "[") with true. cbv iota.
    assert (strip_prefix "]"
              (String.concat "," (List.map JSON_text (x :: xs)) +:+ String "]" rest)
            = None) as ->.
    { apply andb_true_iff in Hwf as [Hx _].
      destruct (text_head x Hx) as (c & t & Htext & Hc & _).
      change (List.map JSON_text (x :: xs))
        with (JSON_text x :: List.map JSON_text xs).
      destruct (List.map JSON_text xs); [rewrite concat_one|rewrite concat_more];
        rewrite Htext, !string_app_String; apply strip_prefix_fails, Hc. }
    rewrite (parse_elements_text (x :: xs) IH Hwf); [reflexivity|discriminate|lia].
  - destruct fuel as [|fuel]; [simpl in Hfuel; lia|].
    destruct fields as [|[k v] kvs]; [reflexivity|].
    set (member := fun kv : string * JSON =>
                     let '(k, v) := kv in quote k +:+ ":" +:+ JSON_text v).
    change (JSON_text (JObj ((k, v) :: kvs)))
      with ("{" +:+ String.concat "," (List.map member ((k, v) :: kvs)) +:+ "}") in *.
    rewrite !string_length_app in Hfuel.
    change (String.length "{") with 1%nat in Hfuel.
    change (String.length "}") with 1%nat in Hfuel.
    rewrite !string_app_String, !string_app_nil_l, string_app_assoc,
      string_app_String, string_app_nil_l, parse_value_S.
    change (is_number_char "{") with false.
    change (Ascii.eqb "{" dquote) with false.
    change (Ascii.eqb "{" "[") with false.
    change (Ascii.eqb "{" "{") with true. cbv iota.
    assert (strip_prefix "}"
              (String.concat "," (List.map member ((k, v) :: kvs)) +:+ String "}" rest)
            = None) as ->.
    { change (List.map member ((k, v) :: kvs))
        with ((quote k +:+ ":" +:+ JSON_text v) :: List.map member kvs).
      destruct (List.map member kvs); [rewrite concat_one|rewrite concat_more];
        unfold quote; rewrite !string_app_String; reflexivity. }
    unfold member.
    rewrite (parse_members_text ((k, v) :: kvs) IH Hwf); [reflexivity|discriminate|].
    fold member. lia.
Qed.

(** Decoding the text of a well-formed value gives the value back. *)
Lemma JSON_parse_text j : well_formed j = true -> JSON_parse (JSON_text j) = Some j.
Proof.
  intros Hwf. unfold JSON_parse.
  pose proof (parse_value_text j Hwf (String.length (JSON_text j)) ""
                (Nat.le_refl _) I) as H.
  rewrite string_app_nil_r in H. rewrite H. reflexivity.
Qed.

Example decode_keeps_escapes :
  JSON_parse (JSON_text (JObj [("version", JStr "ab\c"); ("n", JNum "-1.5e+3");
                               ("l", JArr [JNull; JBool true; JArr []; JObj []])]))
  = Some (JObj [("version", JStr "ab\c"); ("n", JNum "-1.5e+3");
                ("l", JArr [JNull; JBool true; JArr []; JObj []])]).
Proof. vm_compute. reflexivity. Qed.

#[local] Arguments split : simpl never.
#[local] Arguments String.eqb : simpl never.
#[local] Arguments has : simpl never.

(** ** Membership in the four enumerations *)

Lemma has_spec s x : has s x = true <-> x ∈ s.
Proof. unfold has. apply bool_decide_eq_true. Qed.

Lemma elem_of_QUALITIES x : x ∈ QUALITIES <-> x = INSIDER \/ x = STABLE.
Proof. unfold QUALITIES. rewrite !elem_of_union, !elem_of_singleton. tauto. Qed.

Lemma elem_of_OS x : x ∈ OS <-> x = DARWIN \/ x = LINUX \/ x = WINDOWS.
Proof. unfold OS. rewrite !elem_of_union, !elem_of_singleton. tauto. Qed.

Lemma elem_of_TYPES x : x ∈ TYPES <-> x = ARCHIVE \/ x = USER \/ x = SYSTEM.
Proof. unfold TYPES. rewrite !elem_of_union, !elem_of_singleton. tauto. Qed.

Lemma elem_of_ARCH x : x ∈ ARCH <-> x = ARM64 \/ x = IA32 \/ x = X64.
Proof. unfold ARCH. rewrite !elem_of_union, !elem_of_singleton. tauto. Qed.

Lemma quality_passes q :
  q ∈ QUALITIES ->
  negb (truthy (Some q)) || negb (has_slot QUALITIES (Some q)) = false.
Proof.
  intros Hq. simpl has_slot. apply has_spec in Hq as Hhas. rewrite Hhas.
  apply elem_of_QUALITIES in Hq as [-> | ->]; reflexivity.
Qed.

(** Turns the boolean tests left in the context by a case analysis of
    [validateInput] into propositions. *)
Ltac reflect_tests :=
  repeat match goal with
    | H : negb _ = false |- _ => apply negb_false_iff in H
    | H : negb _ = true |- _ => apply negb_true_iff in H
    | H : _ || _ = false |- _ => apply orb_false_iff in H; destruct H
    | H : has_slot _ (Some _) = true |- _ => simpl in H
    | H : has_slot _ None = true |- _ => discriminate H
    | H : has _ _ = true |- _ => apply has_spec in H
    | H : String.eqb _ _ = true |- _ => apply String.eqb_eq in H
    | H : String.eqb _ _ = false |- _ => apply String.eqb_neq in H
    end.

(** ** The platform resolver *)

(** What an accepted descriptor is known to satisfy. *)
Lemma validateInput_sound p q d :
  validateInput p q = Some d ->
  quality d ∈ QUALITIES /\ os d ∈ OS /\ arch d ∈ ARCH /\
  (os d = WINDOWS -> exists t, type d = Some t /\ t ∈ TYPES) /\
  (os d <> WINDOWS -> exists s, p = Some s /\ type d = split "-" s !! 2%nat).
Proof.
  unfold validateInput. intros H.
  repeat (case_match; simplify_eq; try done).
  all: reflect_tests; simplify_eq/=.
  all: repeat split; try done; eauto.
  all: intros _;
    match goal with
    | H : has_slot TYPES ?x = true |- _ =>
        destruct x; [apply has_spec in H; eauto | discriminate]
    end.
Qed.

(** C1, as the source has it: whenever [validateInput] returns a descriptor,
    its quality, os and arch are members of their enumerations; on win32 the
    type is defined and a member of the package-type enumeration; on darwin
    and linux the type is the third dash-separated token of the platform
    string, whatever it is ([undefined] when there is none).  Otherwise the
    resolver returns [false]. *)
Theorem validateInput_descriptor_valid p q :
  match validateInput p q with
  | Some d =>
      quality d ∈ QUALITIES /\ os d ∈ OS /\ arch d ∈ ARCH /\
      (os d = WINDOWS -> exists t, type d = Some t /\ t ∈ TYPES) /\
      (os d <> WINDOWS -> exists s, p = Some s /\ type d = split "-" s !! 2%nat)
  | None => True
  end.
Proof.
  destruct (validateInput p q) as [d|] eqn:H; [|exact I].
  exact (validateInput_sound p q d H).
Qed.

Lemma validateInput_descriptor_valid_witness :
  validateInput (Some "win32-arm64-archive") (Some "insider")
  = Some (mkDescriptor "insider" "win32" "arm64" (Some "archive")) /\
  "arm64" ∈ ARCH /\
  exists t, Some "archive" = Some t /\ t ∈ TYPES.
Proof.
  split; [vm_compute; reflexivity|].
  pose proof (validateInput_descriptor_valid
                (Some "win32-arm64-archive") (Some "insider")) as H.
  change (validateInput (Some "win32-arm64-archive") (Some "insider"))
    with (Some (mkDescriptor "insider" "win32" "arm64" (Some "archive"))) in H.
  destruct H as (_ & _ & Harch & Hwin & _).
  split; [exact Harch|]. apply Hwin. reflexivity.
Defined.

(** C1, as the claim words it, fails: on linux the third token is returned
    as the type without any check, so a defined type outside the
    package-type enumeration comes back in an accepted descriptor. *)
Lemma validateInput_linux_type_unchecked :
  validateInput (Some "linux-x64-foo") (Some "stable")
  = Some (mkDescriptor "stable" "linux" "x64" (Some "foo")) /\
  "foo" ∉ TYPES.
Proof.
  split; [vm_compute; reflexivity|].
  rewrite elem_of_TYPES. unfold ARCHIVE, USER, SYSTEM.
  intros [H | [H | H]]; discriminate H.
Qed.

(** C3, as the source has it: Windows defaulting applies exactly when the
    third token is absent or empty.  The three literal resolutions of the
    claim hold; with a non-empty third token the arch and type tokens are
    used as they are; without one the defaults of the decision table apply;
    and every accepted win32 descriptor has its type in the package-type
    enumeration. *)
Theorem win32_defaulting :
  validateInput (Some "win32") (Some "stable")
    = Some (mkDescriptor "stable" "win32" "ia32" (Some "system")) /\
  validateInput (Some "win32-user") (Some "stable")
    = Some (mkDescriptor "stable" "win32" "ia32" (Some "user")) /\
  validateInput (Some "win32-x64") (Some "stable")
    = Some (mkDescriptor "stable" "win32" "x64" (Some "system")) /\
  (forall p q,
      q ∈ QUALITIES -> split "-" p !! 0%nat = Some WINDOWS ->
      split "-" p !! 2%nat = None \/ split "-" p !! 2%nat = Some "" ->
      validateInput (Some p) (Some q) = win32_defaulted q (split "-" p !! 1%nat)) /\
  (forall p q t,
      q ∈ QUALITIES -> split "-" p !! 0%nat = Some WINDOWS ->
      split "-" p !! 2%nat = Some t -> t <> "" ->
      validateInput (Some p) (Some q) = win32_explicit q (split "-" p !! 1%nat) t) /\
  (forall p q d,
      validateInput p q = Some d -> os d = WINDOWS ->
      exists t, type d = Some t /\ t ∈ TYPES).
Proof.
  split; [vm_compute; reflexivity|].
  split; [vm_compute; reflexivity|].
  split; [vm_compute; reflexivity|].
  split; [|split].
  - intros p q Hq Hos Hty. unfold validateInput.
    rewrite (quality_passes q Hq), (split_head_truthy _ _ _ _ Hos).
    cbv zeta. rewrite Hos.
    assert (truthy (split "-" p !! 2%nat) = false) as ->
      by (destruct Hty as [-> | ->]; reflexivity).
    unfold win32_defaulted.
    destruct (split "-" p !! 1%nat) as [[|c a]|]; try (vm_compute; reflexivity).
    simpl. change (has OS WINDOWS) with true. simpl.
    destruct (has TYPES (String c a)) eqn:Ht; simpl.
    + rewrite Ht. reflexivity.
    + change (has TYPES SYSTEM) with true. simpl.
      destruct (has ARCH (String c a)); reflexivity.
  - intros p q t Hq Hos Hty Hne. unfold validateInput.
    rewrite (quality_passes q Hq), (split_head_truthy _ _ _ _ Hos).
    cbv zeta. rewrite Hos, Hty. unfold win32_explicit.
    destruct t as [|c t]; [contradiction|].
    simpl. change (has OS WINDOWS) with true. simpl.
    destruct (split "-" p !! 1%nat) as [a|];
      destruct (has TYPES (String c t)); simpl; try reflexivity.
    destruct (has ARCH a); reflexivity.
  - intros p q d H Hwin.
    apply validateInput_sound in H as (_ & _ & _ & Hty & _).
    exact (Hty Hwin).
Qed.

Lemma win32_defaulting_witness :
  validateInput (Some "win32-arm64") (Some "insider")
    = Some (mkDescriptor "insider" "win32" "arm64" (Some "system")) /\
  validateInput (Some "win32-arm64-archive") (Some "insider")
    = Some (mkDescriptor "insider" "win32" "arm64" (Some "archive")).
Proof.
  destruct win32_defaulting as (_ & _ & _ & Hdef & Hexp & _).
  split.
  - rewrite (Hdef "win32-arm64" "insider").
    + vm_compute. reflexivity.
    + apply elem_of_QUALITIES. left. reflexivity.
    + vm_compute. reflexivity.
    + left. vm_compute. reflexivity.
  - rewrite (Hexp "win32-arm64-archive" "insider" "archive").
    + vm_compute. reflexivity.
    + apply elem_of_QUALITIES. left. reflexivity.
    + vm_compute. reflexivity.
    + vm_compute. reflexivity.
    + discriminate.
Defined.

(** C3, as the claim words it, fails: in [win32-x64-] the third token is
    present (it is the empty string that follows the last dash), and the
    default type is applied all the same. *)
Lemma win32_empty_third_token_defaulted :
  split "-" "win32-x64-" !! 2%nat = Some "" /\
  validateInput (Some "win32-x64-") (Some "stable")
    = Some (mkDescriptor "stable" "win32" "x64" (Some "system")).
Proof. split; vm_compute; reflexivity. Qed.

(** C4: with a valid quality, [darwin] alone resolves with the architecture
    defaulted to x64 and the type left undefined, and [linux] alone fails,
    linux having no default architecture. *)
Theorem darwin_defaults_x64_linux_requires_arch q :
  q ∈ QUALITIES ->
  validateInput (Some "darwin") (Some q)
    = Some {| quality := q; os := DARWIN; arch := X64; type := None |} /\
  validateInput (Some "linux") (Some q) = None.
Proof.
  intros Hq. apply elem_of_QUALITIES in Hq as [-> | ->];
    split; vm_compute; reflexivity.
Qed.

Lemma darwin_defaults_x64_linux_requires_arch_witness :
  validateInput (Some "darwin") (Some "insider")
    = Some (mkDescriptor "insider" "darwin" "x64" None) /\
  validateInput (Some "linux") (Some "insider") = None.
Proof.
  apply (darwin_defaults_x64_linux_requires_arch "insider").
  apply elem_of_QUALITIES. left. reflexivity.
Defined.

(** C5: for every os, arch, type and quality of the four enumerations,
    resolving the dash-joined string os-arch-type with that quality yields
    the descriptor with exactly those four values. *)
Theorem validateInput_roundtrip o a t q :
  o ∈ OS -> a ∈ ARCH -> t ∈ TYPES -> q ∈ QUALITIES ->
  validateInput (Some (o +:+ "-" +:+ a +:+ "-" +:+ t)) (Some q)
  = Some {| quality := q; os := o; arch := a; type := Some t |}.
Proof.
  intros Ho Ha Ht Hq.
  apply elem_of_OS in Ho as [-> | [-> | ->]];
    apply elem_of_ARCH in Ha as [-> | [-> | ->]];
    apply elem_of_TYPES in Ht as [-> | [-> | ->]];
    apply elem_of_QUALITIES in Hq as [-> | ->];
    vm_compute; reflexivity.
Qed.

Lemma validateInput_roundtrip_witness :
  validateInput (Some "linux-arm64-archive") (Some "stable")
  = Some (mkDescriptor "stable" "linux" "arm64" (Some "archive")).
Proof.
  apply (validateInput_roundtrip "linux" "arm64" "archive" "stable").
  - apply elem_of_OS. right. left. reflexivity.
  - apply elem_of_ARCH. left. reflexivity.
  - apply elem_of_TYPES. left. reflexivity.
  - apply elem_of_QUALITIES. right. reflexivity.
Defined.

(** The resolver reads the platform string only through its truthiness and
    its first three tokens. *)
Lemma validateInput_three_tokens p p' q :
  truthy (Some p) = truthy (Some p') ->
  split "-" p !! 0%nat = split "-" p' !! 0%nat ->
  split "-" p !! 1%nat = split "-" p' !! 1%nat ->
  split "-" p !! 2%nat = split "-" p' !! 2%nat ->
  validateInput (Some p) q = validateInput (Some p') q.
Proof.
  intros Ht H0 H1 H2. unfold validateInput.
  rewrite Ht. cbv zeta. rewrite H0, H1, H2. reflexivity.
Qed.

(** C9: dash-separated tokens beyond the third are ignored.  Appending a dash
    and anything at all to a platform string that already has three tokens
    does not change what the resolver returns; in particular
    [win32-x64-user-anything] resolves like [win32-x64-user]. *)
Theorem extra_tokens_ignored :
  (forall p extra q,
      (3 <= length (split "-" p))%nat ->
      validateInput (Some (p +:+ "-" +:+ extra)) q = validateInput (Some p) q) /\
  validateInput (Some "win32-x64-user-anything") (Some "stable")
    = Some (mkDescriptor "stable" "win32" "x64" (Some "user")) /\
  validateInput (Some "win32-x64-user") (Some "stable")
    = Some (mkDescriptor "stable" "win32" "x64" (Some "user")).
Proof.
  split; [|split; vm_compute; reflexivity].
  intros p extra q Hlen.
  apply validateInput_three_tokens.
  - rewrite (split_short_empty "-" p) by lia.
    destruct p; [|reflexivity].
    vm_compute in Hlen. lia.
  - change (p +:+ "-" +:+ extra) with (p +:+ String "-" extra).
    rewrite split_app. apply lookup_app_l. lia.
  - change (p +:+ "-" +:+ extra) with (p +:+ String "-" extra).
    rewrite split_app. apply lookup_app_l. lia.
  - change (p +:+ "-" +:+ extra) with (p +:+ String "-" extra).
    rewrite split_app. apply lookup_app_l. lia.
Qed.

Lemma extra_tokens_ignored_witness :
  validateInput (Some ("darwin-arm64-x" +:+ "-" +:+ "y-z")) (Some "insider")
  = validateInput (Some "darwin-arm64-x") (Some "insider").
Proof.
  apply (proj1 extra_tokens_ignored "darwin-arm64-x" "y-z" (Some "insider")).
  vm_compute. lia.
Defined.

(** ** The paths through the handler *)

Lemma getLatestJSON_returns env input w :
  getLatestJSON env input w
  = (Returned (fetched_record
                 (fetch env (buildVersionUrl input) [("Accept", "application/json")])),
     {| res := res w;
        requests := (requests w ++ [buildVersionUrl input])%list;
        console := console w |}).
Proof.
  unfold getLatestJSON, try_catch, bind, do_fetch, fetched_record.
  destruct (fetch env _ _) as [|status [|d]]; [reflexivity| |].
  - destruct (ok status); reflexivity.
  - destruct (ok status); simpl; [|reflexivity].
    destruct (truthy_json d); simpl; [|reflexivity].
    destruct (String.eqb (typeof d) "object"); reflexivity.
Qed.

Lemma fetched_record_truthy o :
  truthy_json (fetched_record o) = true ->
  get_prop (fetched_record o) "version" = Some (version_of (fetched_record o)).
Proof.
  unfold version_of. destruct (fetched_record o); simpl; try reflexivity.
  discriminate.
Qed.

Lemma handler_method_rejected env req :
  method_allowed req = false ->
  handler env req fresh
  = (Returned tt, {| res := method_not_allowed; requests := []; console := [] |}).
Proof.
  unfold method_allowed, handler, try_catch. intros Hgate.
  apply negb_false_iff in Hgate. rewrite Hgate. reflexivity.
Qed.

Lemma handler_url_fault env req :
  method_allowed req = true -> searchParams req = None ->
  handler env req fresh
  = (Returned tt,
     {| res := internal_error;
        requests := [];
        console := if bool_decide (NODE_ENV env = Some "production")
                   then [] else ["Update API error:"] |}).
Proof.
  unfold method_allowed, handler, try_catch. intros Hgate Hurl.
  apply negb_true_iff in Hgate. rewrite Hgate, Hurl.
  destruct (bool_decide (NODE_ENV env = Some "production")); reflexivity.
Qed.

Lemma handler_invalid env req params :
  method_allowed req = true -> searchParams req = Some params ->
  validateInput (get params "platform") (get params "quality") = None ->
  handler env req fresh
  = (Returned tt, {| res := not_found; requests := []; console := [] |}).
Proof.
  unfold method_allowed, handler, try_catch. intros Hgate Hurl Hinv.
  apply negb_true_iff in Hgate. rewrite Hgate, Hurl.
  unfold bind at 1. unfold ret at 1. rewrite Hinv. reflexivity.
Qed.

Lemma handler_valid env req params input :
  method_allowed req = true -> searchParams req = Some params ->
  validateInput (get params "platform") (get params "quality") = Some input ->
  handler env req fresh
  = let latest := fetched_record
                    (fetch env (buildVersionUrl input)
                       [("Accept", "application/json")]) in
    (Returned tt,
     {| res := if negb (truthy_json latest)
                  || strict_eq (get params "commit") (version_of latest)
               then no_content
               else match JSON_stringify (stack_spare env) latest with
                    | Some _ => update_available latest
                    | None => serialisation_error
                    end;
        requests := [buildVersionUrl input];
        console := if negb (truthy_json latest)
                      || strict_eq (get params "commit") (version_of latest)
                   then []
                   else match JSON_stringify (stack_spare env) latest with
                        | Some _ => []
                        | None =>
                            if bool_decide (NODE_ENV env = Some "production")
                            then [] else ["Update API error:"]
                        end |}).
Proof.
  unfold method_allowed, handler, try_catch. intros Hgate Hurl Hval.
  apply negb_true_iff in Hgate. rewrite Hgate, Hurl.
  unfold bind at 1. unfold ret at 1. rewrite Hval.
  unfold bind at 1. rewrite getLatestJSON_returns.
  cbv zeta.
  destruct (truthy_json (fetched_record _)) eqn:Htruthy; simpl negb; simpl orb.
  - unfold bind at 1. unfold setHeader at 1, update_res at 1.
    rewrite (fetched_record_truthy _ Htruthy).
    unfold bind at 1. unfold ret at 1.
    destruct (strict_eq _ _); [reflexivity|].
    unfold sendJson at 1, JSON_stringify.
    destruct (nesting _ <=? S (stack_spare env))%nat; [reflexivity|].
    destruct (bool_decide (NODE_ENV env = Some "production")); reflexivity.
  - reflexivity.
Qed.

(** The handler never lets an exception escape. *)
Lemma handler_returns env req : fst (handler env req fresh) = Returned tt.
Proof.
  destruct (method_allowed req) eqn:Hgate;
    [|rewrite (handler_method_rejected _ _ Hgate); reflexivity].
  destruct (searchParams req) as [params|] eqn:Hurl;
    [|rewrite (handler_url_fault _ _ Hgate Hurl); reflexivity].
  destruct (validateInput (get params "platform") (get params "quality"))
    as [input|] eqn:Hval;
    [|rewrite (handler_invalid _ _ _ Hgate Hurl Hval); reflexivity].
  rewrite (handler_valid _ _ _ _ Hgate Hurl Hval). reflexivity.
Qed.

Lemma run_valid env req params input :
  method_allowed req = true -> searchParams req = Some params ->
  validateInput (get params "platform") (get params "quality") = Some input ->
  run env req
  = let latest := fetched_record
                    (fetch env (buildVersionUrl input)
                       [("Accept", "application/json")]) in
    {| res := if negb (truthy_json latest)
                 || strict_eq (get params "commit") (version_of latest)
              then no_content
              else match JSON_stringify (stack_spare env) latest with
                   | Some _ => update_available latest
                   | None => serialisation_error
                   end;
       requests := [buildVersionUrl input];
       console := if negb (truthy_json latest)
                     || strict_eq (get params "commit") (version_of latest)
                  then []
                  else match JSON_stringify (stack_spare env) latest with
                       | Some _ => []
                       | None =>
                           if bool_decide (NODE_ENV env = Some "production")
                           then [] else ["Update API error:"]
                       end |}.
Proof.
  intros Hgate Hurl Hval. unfold run.
  rewrite (handler_valid _ _ _ _ Hgate Hurl Hval). reflexivity.
Qed.

Lemma run_method_rejected env req :
  method_allowed req = false ->
  run env req = {| res := method_not_allowed; requests := []; console := [] |}.
Proof.
  intros Hgate. unfold run. rewrite (handler_method_rejected _ _ Hgate).
  reflexivity.
Qed.

Lemma run_url_fault env req :
  method_allowed req = true -> searchParams req = None ->
  run env req
  = {| res := internal_error;
       requests := [];
       console := if bool_decide (NODE_ENV env = Some "production")
                  then [] else ["Update API error:"] |}.
Proof.
  intros Hgate Hurl. unfold run. rewrite (handler_url_fault _ _ Hgate Hurl).
  reflexivity.
Qed.

Lemma run_invalid env req params :
  method_allowed req = true -> searchParams req = Some params ->
  validateInput (get params "platform") (get params "quality") = None ->
  run env req = {| res := not_found; requests := []; console := [] |}.
Proof.
  intros Hgate Hurl Hinv. unfold run.
  rewrite (handler_invalid _ _ _ Hgate Hurl Hinv). reflexivity.
Qed.

(** What [JSON.stringify] gives when it does not throw. *)
Lemma JSON_stringify_Some spare j text :
  JSON_stringify spare j = Some text -> text = JSON_text j.
Proof.
  unfold JSON_stringify. destruct (_ <=? _)%nat; [congruence|discriminate].
Qed.

(** The ways through the handler, for case analysis: the method is rejected;
    the URL cannot be read; the input is invalid; there is no update; the
    record is sent; the record cannot be serialised. *)
Lemma run_cases env req :
  (method_allowed req = false /\
   run env req = {| res := method_not_allowed; requests := []; console := [] |}) \/
  (method_allowed req = true /\ searchParams req = None /\
   run env req
   = {| res := internal_error; requests := [];
        console := if bool_decide (NODE_ENV env = Some "production")
                   then [] else ["Update API error:"] |}) \/
  (exists params,
      method_allowed req = true /\ searchParams req = Some params /\
      validateInput (get params "platform") (get params "quality") = None /\
      run env req = {| res := not_found; requests := []; console := [] |}) \/
  (exists params input,
      method_allowed req = true /\ searchParams req = Some params /\
      validateInput (get params "platform") (get params "quality") = Some input /\
      negb (truthy_json
              (fetched_record
                 (fetch env (buildVersionUrl input) [("Accept", "application/json")])))
      || strict_eq (get params "commit")
           (version_of
              (fetched_record
                 (fetch env (buildVersionUrl input) [("Accept", "application/json")])))
      = true /\
      run env req
      = {| res := no_content; requests := [buildVersionUrl input]; console := [] |}) \/
  (exists params input,
      method_allowed req = true /\ searchParams req = Some params /\
      validateInput (get params "platform") (get params "quality") = Some input /\
      negb (truthy_json
              (fetched_record
                 (fetch env (buildVersionUrl input) [("Accept", "application/json")])))
      || strict_eq (get params "commit")
           (version_of
              (fetched_record
                 (fetch env (buildVersionUrl input) [("Accept", "application/json")])))
      = false /\
      ((JSON_stringify (stack_spare env)
          (fetched_record
             (fetch env (buildVersionUrl input) [("Accept", "application/json")]))
        = Some (JSON_text
                  (fetched_record
                     (fetch env (buildVersionUrl input)
                        [("Accept", "application/json")]))) /\
        run env req
        = {| res := update_available
                      (fetched_record
                         (fetch env (buildVersionUrl input)
                            [("Accept", "application/json")]));
             requests := [buildVersionUrl input];
             console := [] |}) \/
       (JSON_stringify (stack_spare env)
          (fetched_record
             (fetch env (buildVersionUrl input) [("Accept", "application/json")]))
        = None /\
        run env req
        = {| res := serialisation_error;
             requests := [buildVersionUrl input];
             console := if bool_decide (NODE_ENV env = Some "production")
                        then [] else ["Update API error:"] |}))).
Proof.
  destruct (method_allowed req) eqn:Hgate;
    [|left; split; [reflexivity|apply run_method_rejected, Hgate]].
  destruct (searchParams req) as [params|] eqn:Hurl;
    [|right; left; repeat split; apply run_url_fault; assumption].
  destruct (validateInput (get params "platform") (get params "quality"))
    as [input|] eqn:Hval;
    [|right; right; left; exists params; repeat split; try assumption;
      apply (run_invalid _ _ _ Hgate Hurl Hval)].
  do 3 right. rewrite (run_valid _ _ _ _ Hgate Hurl Hval). cbv zeta.
  destruct (negb _ || _) eqn:Hdec.
  - left. exists params, input. repeat split; assumption.
  - right. exists params, input. do 4 (split; [assumption || reflexivity|]).
    destruct (JSON_stringify _ _) as [text|] eqn:Htext.
    + left. apply JSON_stringify_Some in Htext as ->. split; reflexivity.
    + right. split; reflexivity.
Qed.

(** Every run ends in one of the six responses. *)
Lemma respond_cases env req :
  respond env req = method_not_allowed \/
  respond env req = internal_error \/
  respond env req = not_found \/
  respond env req = no_content \/
  (exists latest, respond env req = update_available latest) \/
  respond env req = serialisation_error.
Proof.
  unfold respond.
  destruct (run_cases env req)
    as [(_ & ->) | [(_ & _ & ->) | [(ps & _ & _ & _ & ->)
       | [(ps & input & _ & _ & _ & _ & ->)
       | (ps & input & _ & _ & _ & _ & [(_ & ->) | (_ & ->)])]]]];
    simpl; eauto 8.
Qed.

Lemma cache_control_no_content :
  headers no_content !! "Cache-Control" = Some "s-maxage=14400".
Proof. apply lookup_insert_eq. Qed.

Lemma cache_control_update latest :
  headers (update_available latest) !! "Cache-Control" = Some "s-maxage=14400".
Proof.
  simpl. rewrite lookup_insert_ne by discriminate. apply lookup_insert_eq.
Qed.

Lemma content_type_update latest :
  headers (update_available latest) !! "Content-Type" = Some json_content_type.
Proof. apply lookup_insert_eq. Qed.

Lemma cache_control_serialisation_error :
  headers serialisation_error !! "Cache-Control" = Some "s-maxage=14400".
Proof.
  simpl. rewrite !lookup_insert_ne by discriminate. apply lookup_insert_eq.
Qed.

(** ** The update decision handler *)

(** C2, as the source has it: the header [Cache-Control: s-maxage=14400] is on
    the response exactly when the remote fetch was made.  So the responses
    with status 200 and 204 carry it; the 404 and the 405 response do not;
    and a 500 response carries it when the fault came after the fetch (the
    record could not be serialised) and not when the request URL could not
    be read. *)
Theorem cache_control_exactly_after_the_fetch env req :
  (headers (respond env req) !! "Cache-Control" = Some "s-maxage=14400" <->
   requests (run env req) <> []) /\
  (headers (respond env req) !! "Cache-Control" = None <->
   requests (run env req) = []) /\
  (statusCode (respond env req) = 200%Z \/ statusCode (respond env req) = 204%Z ->
   headers (respond env req) !! "Cache-Control" = Some "s-maxage=14400") /\
  (statusCode (respond env req) = 404%Z \/ statusCode (respond env req) = 405%Z ->
   headers (respond env req) !! "Cache-Control" = None) /\
  (statusCode (respond env req) = 500%Z ->
   (searchParams req = None ->
    headers (respond env req) !! "Cache-Control" = None) /\
   (searchParams req <> None ->
    headers (respond env req) !! "Cache-Control" = Some "s-maxage=14400")).
Proof.
  unfold respond.
  destruct (run_cases env req)
    as [(Hg & ->) | [(Hg & Hu & ->) | [(ps & Hg & Hu & Hv & ->)
       | [(ps & input & Hg & Hu & Hv & Hd & ->)
       | (ps & input & Hg & Hu & Hv & Hd & [(Ht & ->) | (Ht & ->)])]]]];
    simpl res; simpl requests.
  - repeat split; try discriminate; try congruence; try reflexivity;
      intros [H | H]; discriminate H.
  - repeat split; try discriminate; try congruence; try reflexivity;
      intros [H | H]; discriminate H.
  - repeat split; try discriminate; try congruence; try reflexivity;
      intros [H | H]; discriminate H.
  - rewrite cache_control_no_content.
    repeat split; try discriminate; try congruence; try reflexivity;
      intros [H | H]; discriminate H.
  - rewrite cache_control_update.
    repeat split; try discriminate; try congruence; try reflexivity;
      intros [H | H]; discriminate H.
  - rewrite cache_control_serialisation_error.
    repeat split; try discriminate; try congruence; try reflexivity;
      intros [H | H]; discriminate H.
Qed.

Lemma cache_control_exactly_after_the_fetch_witness :
  headers (respond (remote_with NetworkFault) (get_request "darwin" "stable" "c0"))
    !! "Cache-Control" = Some "s-maxage=14400".
Proof.
  refine (proj1 (proj2 (proj2
    (cache_control_exactly_after_the_fetch
       (remote_with NetworkFault) (get_request "darwin" "stable" "c0")))) _).
  right. vm_compute. reflexivity.
Defined.

(** C2, as the claim words it, fails: an invalid platform is answered with
    404 before the fetch, and that response has no [Cache-Control] header. *)
Lemma not_found_without_cache_control :
  statusCode (respond (remote_with NetworkFault)
                (get_request "beos-x64" "stable" "c0")) = 404%Z /\
  headers (respond (remote_with NetworkFault)
             (get_request "beos-x64" "stable" "c0")) !! "Cache-Control" = None.
Proof. split; vm_compute; reflexivity. Qed.

Lemma upstream_failure_null o : upstream_failure o -> fetched_record o = JNull.
Proof.
  intros [ | status payload Hok | status | status d Hprim]; simpl.
  - reflexivity.
  - rewrite Hok. reflexivity.
  - destruct (ok status); reflexivity.
  - destruct (ok status); [|reflexivity].
    destruct d as [|b|text|s| |]; try discriminate Hprim.
    + reflexivity.
    + destruct b; reflexivity.
    + simpl. destruct (negb _); reflexivity.
    + destruct s; reflexivity.
Qed.

Lemma fetched_record_object status latest :
  ok status = true -> is_primitive latest = false ->
  fetched_record (HttpResponse status (Parsed latest)) = latest /\
  truthy_json latest = true.
Proof.
  intros Hok Hobj. simpl. rewrite Hok.
  destruct latest; try discriminate Hobj; split; reflexivity.
Qed.

Lemma method_check_rejects req m :
  method req = Some m -> m <> "" -> m <> "GET" -> method_allowed req = false.
Proof.
  intros Hm Hne Hget. unfold method_allowed. rewrite Hm.
  destruct m as [|c m]; [contradiction|]. simpl.
  rewrite bool_decide_eq_false_2; [reflexivity|].
  intros Heq. apply Hget. congruence.
Qed.

(** C6, as the source has it: for every request that reaches the remote fetch
    (method absent or GET, valid platform and quality), if the fetch raises a
    network-level fault, returns a non-success status (500 included), returns
    a body that is not JSON, or returns a body that parses to null, a boolean,
    a number or a string, then [getLatestJSON] returns null without throwing,
    and the handler responds 204 with an empty body, never 500. *)
Theorem upstream_failure_gives_no_content env req params input :
  method_allowed req = true ->
  searchParams req = Some params ->
  validateInput (get params "platform") (get params "quality") = Some input ->
  upstream_failure
    (fetch env (buildVersionUrl input) [("Accept", "application/json")]) ->
  fst (getLatestJSON env input fresh) = Returned JNull /\
  fst (handler env req fresh) = Returned tt /\
  statusCode (respond env req) = 204%Z /\
  body (respond env req) = "" /\
  statusCode (respond env req) <> 500%Z.
Proof.
  intros Hgate Hurl Hval Hfail.
  apply upstream_failure_null in Hfail.
  split; [rewrite getLatestJSON_returns, Hfail; reflexivity|].
  split; [apply handler_returns|].
  unfold respond. rewrite (run_valid _ _ _ _ Hgate Hurl Hval), Hfail.
  simpl. repeat split. discriminate.
Qed.

Lemma upstream_failure_gives_no_content_witness :
  statusCode (respond (remote_with (HttpResponse 500 Malformed))
                (get_request "win32-x64-user" "stable" "c0")) = 204%Z.
Proof.
  refine (proj1 (proj2 (proj2
    (upstream_failure_gives_no_content
       (remote_with (HttpResponse 500 Malformed))
       (get_request "win32-x64-user" "stable" "c0")
       [("platform", "win32-x64-user"); ("quality", "stable"); ("commit", "c0")]
       (mkDescriptor "stable" "win32" "x64" (Some "user"))
       _ _ _ _)))).
  - reflexivity.
  - reflexivity.
  - vm_compute. reflexivity.
  - apply fault_status. reflexivity.
Defined.

(** C6, as the claim words it, fails when the body is JSON but not a JSON
    object: a JSON array passes the [typeof data !== 'object'] test of
    [getLatestJSON], and the handler answers 200 with the array as body. *)
Lemma array_body_is_served :
  statusCode (respond (remote_with (HttpResponse 200 (Parsed (JArr [JNum "1"]))))
                (get_request "win32-x64-user" "stable" "c0")) = 200%Z /\
  body (respond (remote_with (HttpResponse 200 (Parsed (JArr [JNum "1"]))))
          (get_request "win32-x64-user" "stable" "c0")) = "[1]".
Proof. split; vm_compute; reflexivity. Qed.

(** C7: a request whose method is present (a non-empty token, as HTTP
    requires) and is not GET is answered 405 with the header [Allow: GET] and
    the body [{"error":"Method Not Allowed"}].  Nothing is fetched, and the
    outcome is the same whatever the URL, the query and the remote store are,
    a URL that cannot be parsed included: the rejection comes before any of
    them is looked at. *)
Theorem other_methods_rejected_first env req m :
  method req = Some m -> m <> "" -> m <> "GET" ->
  statusCode (respond env req) = 405%Z /\
  headers (respond env req) !! "Allow" = Some "GET" /\
  body (respond env req) = error_body "Method Not Allowed" /\
  requests (run env req) = [] /\
  (forall env' url, run env' {| method := Some m; searchParams := url |}
                    = run env req).
Proof.
  intros Hm Hne Hget.
  pose proof (method_check_rejects req m Hm Hne Hget) as Hgate.
  unfold respond. rewrite (run_method_rejected env req Hgate). simpl.
  split; [reflexivity|].
  split; [rewrite lookup_insert_ne by discriminate; apply lookup_insert_eq|].
  split; [vm_compute; reflexivity|].
  split; [reflexivity|].
  intros env' url. apply run_method_rejected.
  apply (method_check_rejects _ m); [reflexivity|assumption|assumption].
Qed.

Lemma other_methods_rejected_first_witness :
  statusCode (respond (remote_with NetworkFault)
                {| method := Some "POST"; searchParams := None |}) = 405%Z.
Proof.
  refine (proj1 (other_methods_rejected_first (remote_with NetworkFault)
                   {| method := Some "POST"; searchParams := None |} "POST"
                   _ _ _)).
  - reflexivity.
  - discriminate.
  - discriminate.
Defined.

(** What [commit === latest.version] amounts to. *)
Lemma strict_eq_spec commit v :
  strict_eq commit v = true <->
  (exists c, commit = Some c /\ v = Some (JStr c)) \/
  (commit = None /\ v = Some JNull).
Proof.
  unfold strict_eq. split.
  - destruct commit as [c|], v as [[]|]; try discriminate; intros H.
    + apply String.eqb_eq in H as ->. left. eauto.
    + right. split; reflexivity.
  - intros [(c & -> & ->) | (-> & ->)]; [apply String.eqb_refl|reflexivity].
Qed.


Lemma error_body_text message :
  message = "Internal Server Error" ->
  JSON_text (JObj [("error", JStr message)]) = error_body message.
Proof. intros ->. vm_compute. reflexivity. Qed.




(** C10, as the source has it: the commit parameter is never validated: a GET
    request with a valid platform and quality is never answered 404 or 405,
    whatever its commit parameter is, present or not.  When the parameter is
    absent and the remote record's version is a string, the comparison is
    false, so the response is never 204: it is 200 with the serialized record
    as body, or 500 with the generic error body when [JSON.stringify] throws
    on the record. *)
Theorem commit_is_not_validated :
  (forall env req params input,
      method_allowed req = true ->
      searchParams req = Some params ->
      validateInput (get params "platform") (get params "quality") = Some input ->
      statusCode (respond env req) = 200%Z \/ statusCode (respond env req) = 204%Z
      \/ statusCode (respond env req) = 500%Z) /\
  (forall env req params input status latest v,
      method_allowed req = true ->
      searchParams req = Some params ->
      validateInput (get params "platform") (get params "quality") = Some input ->
      fetch env (buildVersionUrl input) [("Accept", "application/json")]
        = HttpResponse status (Parsed latest) ->
      ok status = true ->
      is_primitive latest = false ->
      get params "commit" = None ->
      version_of latest = Some (JStr v) ->
      strict_eq (get params "commit") (version_of latest) = false /\
      statusCode (respond env req) <> 204%Z /\
      (forall text,
          JSON_stringify (stack_spare env) latest = Some text ->
          statusCode (respond env req) = 200%Z /\
          body (respond env req) = text /\
          (well_formed latest = true ->
           JSON_parse (body (respond env req)) = Some latest)) /\
      (JSON_stringify (stack_spare env) latest = None ->
       statusCode (respond env req) = 500%Z /\
       body (respond env req) = error_body "Internal Server Error")).
Proof.
  split.
  - intros env req params input Hgate Hurl Hval.
    unfold respond. rewrite (run_valid _ _ _ _ Hgate Hurl Hval).
    cbv zeta. simpl res.
    destruct (_ || _); [right; left; reflexivity|].
    destruct (JSON_stringify _ _); [left|right; right]; reflexivity.
  - intros env req params input status latest v
      Hgate Hurl Hval Hfetch Hok Hobj Hcommit Hversion.
    destruct (fetched_record_object status latest Hok Hobj) as [Hrec Htruthy].
    unfold respond. rewrite (run_valid _ _ _ _ Hgate Hurl Hval), Hfetch, Hrec.
    cbv zeta. simpl res. rewrite Htruthy, Hcommit, Hversion.
    simpl negb. simpl orb. simpl strict_eq. cbv iota.
    split; [reflexivity|]. split.
    { destruct (JSON_stringify _ _); discriminate. }
    split.
    + intros text Htext. rewrite Htext.
      apply JSON_stringify_Some in Htext as ->.
      split; [reflexivity|]. split; [reflexivity|].
      intros Hwf. apply JSON_parse_text, Hwf.
    + intros Hthrow. rewrite Hthrow. split; [reflexivity|].
      apply error_body_text. reflexivity.
Qed.

Lemma commit_is_not_validated_witness :
  statusCode
    (respond
       (remote_with (HttpResponse 200 (Parsed (JObj [("version", JStr "c1")]))))
       {| method := Some "GET";
          searchParams := Some [("platform", "darwin"); ("quality", "insider")] |})
  = 200%Z /\
  JSON_parse
    (body
       (respond
          (remote_with (HttpResponse 200 (Parsed (JObj [("version", JStr "c1")]))))
          {| method := Some "GET";
             searchParams := Some [("platform", "darwin"); ("quality", "insider")] |}))
  = Some (JObj [("version", JStr "c1")]).
Proof.
  destruct (proj1 (proj2 (proj2
    (proj2 commit_is_not_validated
       (remote_with (HttpResponse 200 (Parsed (JObj [("version", JStr "c1")]))))
       {| method := Some "GET";
          searchParams := Some [("platform", "darwin"); ("quality", "insider")] |}
       [("platform", "darwin"); ("quality", "insider")]
       (mkDescriptor "insider" "darwin" "x64" None)
       200%Z (JObj [("version", JStr "c1")]) "c1"
       eq_refl eq_refl eq_refl eq_refl eq_refl eq_refl eq_refl eq_refl)))
    (JSON_text (JObj [("version", JStr "c1")])) eq_refl)
    as (Hstatus & _ & Hparse).
  split; [exact Hstatus|]. apply Hparse. reflexivity.
Defined.

(** C10, as the claim words it, fails: with no commit parameter and a record
    whose version is a string, a record nested deeper than the engine's stack
    allows is answered 500, not 200. *)
Lemma absent_commit_deep_record_is_answered_500 :
  version_of (deep_record "c1" 100001) = Some (JStr "c1") /\
  get [("platform", "darwin"); ("quality", "insider")] "commit" = None /\
  statusCode
    (respond (remote_with (HttpResponse 200 (Parsed (deep_record "c1" 100001))))
       {| method := Some "GET";
          searchParams := Some [("platform", "darwin"); ("quality", "insider")] |})
  = 500%Z.
Proof. repeat split; vm_compute; reflexivity. Qed.

(** * Further properties of the source *)

(** ** Splitting the platform string (line 75) *)

Lemma split_empty sep : split sep "" = [""].
Proof. reflexivity. Qed.

Lemma split_String sep c rest :
  split sep (String c rest)
  = if Ascii.eqb c sep then "" :: split sep rest
    else match split sep rest with
         | tok :: toks => String c tok :: toks
         | [] => [String c ""]
         end.
Proof. reflexivity. Qed.

Lemma split_concat sep s : String.concat (String sep "") (split sep s) = s.
Proof.
  induction s as [|c rest IH]; [reflexivity|].
  rewrite split_String. pose proof (split_nonempty sep rest) as Hne.
  destruct (Ascii.eqb c sep) eqn:Hc.
  - apply Ascii.eqb_eq in Hc as ->.
    destruct (split sep rest) as [|tok toks]; [contradiction|].
    change (String.concat (String sep "") ("" :: tok :: toks))
      with (String sep (String.concat (String sep "") (tok :: toks))).
    rewrite IH. reflexivity.
  - destruct (split sep rest) as [|tok toks]; [contradiction|].
    rewrite <- IH. destruct toks; reflexivity.
Qed.

Lemma split_tokens_free sep s :
  Forall (fun tok => contains sep tok = false) (split sep s).
Proof.
  induction s as [|c rest IH]; [repeat constructor|].
  rewrite split_String. destruct (Ascii.eqb c sep) eqn:Hc.
  - constructor; [reflexivity|exact IH].
  - destruct (split sep rest) as [|tok toks]; [repeat constructor; simpl; rewrite Hc; reflexivity|].
    inversion IH as [|? ? Htok Htoks]; subst.
    constructor; [|exact Htoks]. simpl. rewrite Hc, Htok. reflexivity.
Qed.

(** X1: [split] loses nothing and cuts at every separator: joining the
    tokens with the separator gives the string back, and no token contains
    the separator.  So the os, arch and type tokens that [validateInput]
    reads never contain a dash. *)
Theorem split_tokens_rejoin sep s :
  String.concat (String sep "") (split sep s) = s /\
  Forall (fun tok => contains sep tok = false) (split sep s).
Proof. split; [apply split_concat|apply split_tokens_free]. Qed.

(** A string without the separator is its own single token. *)
Lemma split_no_sep sep s : contains sep s = false -> split sep s = [s].
Proof.
  induction s as [|c rest IH]; [reflexivity|].
  simpl contains. intros H. apply orb_false_iff in H as [Hc Hrest].
  rewrite split_String, Hc, (IH Hrest). reflexivity.
Qed.

Lemma split_join2 sep a b :
  contains sep a = false ->
  split sep (a +:+ String sep b) = a :: split sep b.
Proof. intros Ha. rewrite split_app, (split_no_sep _ _ Ha). reflexivity. Qed.

(** ** More of the platform resolver (lines 71-102) *)

(** X2: the darwin and linux rows of the resolver.  On darwin a missing or
    empty arch token is replaced by x64, whatever the third token is; on
    linux the arch token is required.  In both the arch must be one of the
    three architectures and the third token becomes the type unchecked. *)
Theorem darwin_linux_resolution p q :
  q ∈ QUALITIES ->
  (split "-" p !! 0%nat = Some DARWIN ->
   validateInput (Some p) (Some q)
   = match split "-" p !! 1%nat with
     | Some (String c a) =>
         if has ARCH (String c a)
         then Some {| quality := q; os := DARWIN; arch := String c a;
                      type := split "-" p !! 2%nat |}
         else None
     | _ => Some {| quality := q; os := DARWIN; arch := X64;
                    type := split "-" p !! 2%nat |}
     end) /\
  (split "-" p !! 0%nat = Some LINUX ->
   validateInput (Some p) (Some q)
   = match split "-" p !! 1%nat with
     | Some a =>
         if has ARCH a
         then Some {| quality := q; os := LINUX; arch := a;
                      type := split "-" p !! 2%nat |}
         else None
     | None => None
     end).
Proof.
  intros Hq. split; intros Hos; unfold validateInput;
    rewrite (quality_passes q Hq), (split_head_truthy _ _ _ _ Hos);
    cbv zeta; rewrite Hos.
  - destruct (split "-" p !! 1%nat) as [[|c a]|]; try reflexivity.
    change (has_slot OS (Some DARWIN)) with true.
    change (String.eqb DARWIN WINDOWS) with false.
    change (String.eqb DARWIN DARWIN) with true.
    simpl. destruct (has ARCH (String c a)); reflexivity.
  - change (has_slot OS (Some LINUX)) with true.
    change (String.eqb LINUX WINDOWS) with false.
    change (String.eqb LINUX DARWIN) with false.
    simpl. destruct (split "-" p !! 1%nat) as [a|]; [|reflexivity].
    simpl. destruct (has ARCH a); reflexivity.
Qed.

Lemma darwin_linux_resolution_witness :
  validateInput (Some "darwin--beta") (Some "stable")
    = Some (mkDescriptor "stable" "darwin" "x64" (Some "beta")) /\
  validateInput (Some "linux--beta") (Some "stable") = None.
Proof.
  destruct (darwin_linux_resolution "darwin--beta" "stable") as [Hd _];
    [apply elem_of_QUALITIES; right; reflexivity|].
  destruct (darwin_linux_resolution "linux--beta" "stable") as [_ Hl];
    [apply elem_of_QUALITIES; right; reflexivity|].
  split.
  - rewrite Hd by (vm_compute; reflexivity). vm_compute. reflexivity.
  - rewrite Hl by (vm_compute; reflexivity). vm_compute. reflexivity.
Defined.

(** X3: what the resolver refuses outright: a quality that is absent or not
    one of the two qualities, whatever the platform; a platform that is
    absent or empty; and a first token that is none of the three systems
    (matching is exact, so case matters). *)
Theorem validateInput_rejects p q :
  (forall s, q = Some s -> s ∉ QUALITIES) \/
  truthy p = false \/
  (exists s, p = Some s /\ forall o, split "-" s !! 0%nat = Some o -> o ∉ OS) ->
  validateInput p q = None.
Proof.
  intros H. unfold validateInput.
  destruct (negb (truthy q) || negb (has_slot QUALITIES q)) eqn:Hq;
    [reflexivity|].
  destruct (negb (truthy p)) eqn:Hp; [reflexivity|].
  reflect_tests.
  destruct p as [p|]; [|discriminate].
  destruct q as [q|]; [|discriminate].
  reflect_tests.
  destruct H as [H | [H | (s & Hs & H)]].
  - destruct (H q eq_refl); assumption.
  - congruence.
  - injection Hs as <-. cbv zeta.
    destruct (split "-" p !! 0%nat) as [o|]; [|reflexivity].
    simpl has_slot. destruct (has OS o) eqn:Ho; [|reflexivity].
    apply has_spec in Ho. destruct (H o eq_refl Ho).
Qed.

Lemma validateInput_rejects_witness :
  validateInput (Some "Win32-x64") (Some "stable") = None.
Proof.
  apply validateInput_rejects. right. right.
  exists "Win32-x64". split; [reflexivity|].
  intros o Ho. vm_compute in Ho. injection Ho as <-.
  rewrite elem_of_OS. unfold DARWIN, LINUX, WINDOWS.
  intros [H | [H | H]]; discriminate H.
Defined.

Lemma string_app_inv_tail s s' x : s +:+ x = s' +:+ x -> s = s'.
Proof.
  revert s'. induction s as [|c s IH]; intros [|c' s'] H; simpl in H.
  - reflexivity.
  - apply (f_equal String.length) in H.
    rewrite ?string_length_app in H. simpl in H.
    rewrite ?string_length_app in H. lia.
  - apply (f_equal String.length) in H.
    rewrite ?string_length_app in H. simpl in H.
    rewrite ?string_length_app in H. lia.
  - injection H as -> H. f_equal. apply IH, H.
Qed.

Lemma enum_no_dash x :
  x ∈ OS \/ x ∈ ARCH \/ x ∈ TYPES -> contains "-" x = false /\ truthy (Some x) = true.
Proof.
  rewrite elem_of_OS, elem_of_ARCH, elem_of_TYPES.
  intros [[-> | [-> | ->]] | [[-> | [-> | ->]] | [-> | [-> | ->]]]];
    split; reflexivity.
Qed.

(** The tokens of a three-part and of a two-part platform string. *)
Lemma split_three o a t :
  contains "-" o = false -> contains "-" a = false -> contains "-" t = false ->
  split "-" (o +:+ "-" +:+ a +:+ "-" +:+ t) = [o; a; t].
Proof.
  intros Ho Ha Ht.
  change (o +:+ "-" +:+ a +:+ "-" +:+ t)
    with (o +:+ String "-" (a +:+ String "-" t)).
  rewrite (split_join2 _ _ _ Ho), (split_join2 _ _ _ Ha), (split_no_sep _ _ Ht).
  reflexivity.
Qed.

Lemma split_two o a :
  contains "-" o = false -> contains "-" a = false ->
  split "-" (o +:+ "-" +:+ a) = [o; a].
Proof.
  intros Ho Ha. change (o +:+ "-" +:+ a) with (o +:+ String "-" a).
  rewrite (split_join2 _ _ _ Ho), (split_no_sep _ _ Ha). reflexivity.
Qed.

Lemma lookup_token_no_dash s i tok :
  split "-" s !! i = Some tok -> contains "-" tok = false.
Proof.
  intros H. pose proof (split_tokens_free "-" s) as Hfree.
  rewrite Forall_forall in Hfree. apply Hfree.
  apply (list_elem_of_lookup_2 _ i). exact H.
Qed.

Lemma truthy_app_l o x : truthy (Some o) = true -> truthy (Some (o +:+ x)) = true.
Proof. destruct o; [discriminate|reflexivity]. Qed.

#[local] Arguments truthy : simpl never.

(** The type of an accepted descriptor, when defined, has no dash in it. *)
Lemma accepted_type_no_dash p q d t :
  validateInput p q = Some d -> type d = Some t -> contains "-" t = false.
Proof.
  intros H Ht.
  destruct (validateInput_sound p q d H) as (_ & _ & _ & Hwin & Hnw).
  destruct (decide (os d = WINDOWS)) as [Hw|Hw].
  - destruct (Hwin Hw) as (t' & Ht' & Hin). rewrite Ht in Ht'.
    injection Ht' as <-. apply enum_no_dash. auto.
  - destruct (Hnw Hw) as (s & _ & Hs). rewrite Ht in Hs. symmetry in Hs.
    exact (lookup_token_no_dash _ _ _ Hs).
Qed.

(** X4: resolving is a normalisation.  Spelling an accepted descriptor out
    as [os-arch-type] (or [os-arch] when it has no type) and resolving that
    string with the same quality gives the same descriptor back, so the
    resolver is idempotent on its own results. *)
Theorem accepted_descriptor_is_fixed_point p q d :
  validateInput p q = Some d ->
  validateInput (Some (platform_string d)) (Some (quality d)) = Some d.
Proof.
  intros H.
  pose proof (fun t => accepted_type_no_dash p q d t H) as Htype.
  destruct (validateInput_sound p q d H) as (Hq & Ho & Ha & Hwin & _).
  destruct (enum_no_dash (os d)) as [Hod Hot]; [auto|].
  destruct (enum_no_dash (arch d)) as [Had Hat]; [auto|].
  apply has_spec in Ho, Ha.
  unfold validateInput. rewrite (quality_passes _ Hq).
  destruct d as [q0 o a t]; unfold platform_string; simpl in *.
  destruct t as [t|].
  - specialize (Htype t eq_refl).
    rewrite (truthy_app_l o _ Hot), (split_three o a t Hod Had Htype).
    change ([o; a; t] !! 0%nat) with (Some o).
    change ([o; a; t] !! 1%nat) with (Some a).
    change ([o; a; t] !! 2%nat) with (Some t).
    simpl. rewrite Ho, Hat. simpl.
    destruct (String.eqb o WINDOWS) eqn:Hw.
    + apply String.eqb_eq in Hw.
      destruct (Hwin Hw) as (t' & Ht' & Hin). injection Ht' as <-.
      destruct (enum_no_dash t) as [_ Htt]; [auto|].
      apply has_spec in Hin. rewrite Htt. simpl. rewrite Hin. simpl.
      rewrite Ha. reflexivity.
    + destruct (String.eqb o DARWIN); simpl; rewrite Ha; reflexivity.
  - rewrite (truthy_app_l o _ Hot), (split_two o a Hod Had).
    change ([o; a] !! 0%nat) with (Some o).
    change ([o; a] !! 1%nat) with (Some a).
    change ([o; a] !! 2%nat) with (@None string).
    simpl. rewrite Ho, Hat. simpl.
    destruct (String.eqb o WINDOWS) eqn:Hw.
    + apply String.eqb_eq in Hw. destruct (Hwin Hw) as (t' & Ht' & _).
      discriminate Ht'.
    + destruct (String.eqb o DARWIN); simpl; rewrite Ha; reflexivity.
Qed.

Lemma accepted_descriptor_is_fixed_point_witness :
  validateInput (Some "win32-x64-system") (Some "insider")
  = Some (mkDescriptor "insider" "win32" "x64" (Some "system")).
Proof.
  apply (accepted_descriptor_is_fixed_point (Some "win32-x64") (Some "insider")
           (mkDescriptor "insider" "win32" "x64" (Some "system"))).
  vm_compute. reflexivity.
Defined.

(** ** buildVersionUrl (lines 41-45) *)

Lemma string_app_inv_head s x y : s +:+ x = s +:+ y -> x = y.
Proof. induction s as [|c s IH]; simpl; intros H; [exact H|]. injection H as H. auto. Qed.


(** A path segment ends at the first slash: two strings that start with a
    slash-free segment followed by the end or by a slash are equal only if
    the segments and the remainders are. *)
Lemma segment_inj x x' r r' :
  contains "/" x = false -> contains "/" x' = false ->
  (r = "" \/ exists s, r = String "/" s) ->
  (r' = "" \/ exists s, r' = String "/" s) ->
  x +:+ r = x' +:+ r' -> x = x' /\ r = r'.
Proof.
  revert x'. induction x as [|c x IH]; intros [|c' x'] Hx Hx' Hr Hr' H;
    rewrite ?string_app_String in H; change ("" +:+ ?y) with y in H.
  - split; [reflexivity|exact H].
  - simpl in Hx'. apply orb_false_iff in Hx' as [Hc' _].
    destruct Hr as [-> | (s & ->)]; [discriminate H|].
    injection H as <- _. discriminate Hc'.
  - simpl in Hx. apply orb_false_iff in Hx as [Hc _].
    destruct Hr' as [-> | (s & ->)]; [discriminate H|].
    injection H as -> _. discriminate Hc.
  - simpl in Hx, Hx'. apply orb_false_iff in Hx as [_ Hx], Hx' as [_ Hx'].
    injection H as -> H. destruct (IH x' Hx Hx' Hr Hr' H) as [-> ->].
    split; reflexivity.
Qed.

Lemma enum_no_slash x :
  x ∈ QUALITIES \/ x ∈ OS \/ x ∈ ARCH -> contains "/" x = false.
Proof.
  rewrite elem_of_QUALITIES, elem_of_OS, elem_of_ARCH.
  intros [[-> | ->] | [[-> | [-> | ->]] | [-> | [-> | ->]]]]; reflexivity.
Qed.

(** The path of line 42-43 with the optional type segment set apart. *)
Lemma buildVersionUrl_path d :
  buildVersionUrl d
  = VERSION_BASE_URL +:+ "/" +:+
    (quality d +:+ String "/" (os d +:+ String "/" (arch d +:+
       ((match type d with
         | Some (String c t) => String "/" (String c t)
         | _ => ""
         end) +:+ "/latest.json")))).
Proof.
  unfold buildVersionUrl. cbv zeta. do 2 f_equal.
  destruct (type d) as [[|c t]|]; cbv [truthy default];
    rewrite ?string_app_assoc; reflexivity.
Qed.

(** X5: distinct accepted platforms never share a metadata file.  If two
    descriptors returned by [validateInput] give the same URL, they have the
    same quality, os and arch, and the same type, except that an empty type
    and an undefined one both leave the type segment out. *)
Theorem buildVersionUrl_injective p q d p' q' d' :
  validateInput p q = Some d ->
  validateInput p' q' = Some d' ->
  buildVersionUrl d = buildVersionUrl d' ->
  quality d = quality d' /\ os d = os d' /\ arch d = arch d' /\
  (type d = type d' \/ (truthy (type d) = false /\ truthy (type d') = false)).
Proof.
  intros H H' Hurl.
  destruct (validateInput_sound p q d H) as (Hq & Ho & Ha & _).
  destruct (validateInput_sound p' q' d' H') as (Hq' & Ho' & Ha' & _).
  rewrite !buildVersionUrl_path in Hurl.
  apply string_app_inv_head in Hurl.
  apply string_app_inv_head in Hurl.
  apply segment_inj in Hurl as [Hquality Hurl];
    [|apply enum_no_slash; auto|apply enum_no_slash; auto|eauto|eauto].
  injection Hurl as Hurl.
  apply segment_inj in Hurl as [Hos Hurl];
    [|apply enum_no_slash; auto|apply enum_no_slash; auto|eauto|eauto].
  injection Hurl as Hurl.
  apply segment_inj in Hurl as [Harch Hurl];
    [|apply enum_no_slash; auto|apply enum_no_slash; auto| |].
  - repeat split; try assumption.
    apply string_app_inv_tail in Hurl.
    destruct (type d) as [[|c t]|], (type d') as [[|c' t']|];
      cbv [truthy]; try discriminate Hurl; auto.
    injection Hurl as -> ->. auto.
  - right. destruct (type d) as [[|c t]|]; simpl; eauto.
  - right. destruct (type d') as [[|c t]|]; simpl; eauto.
Qed.

Lemma buildVersionUrl_injective_witness :
  quality (mkDescriptor "stable" "linux" "x64" (Some ""))
    = quality (mkDescriptor "stable" "linux" "x64" None) /\
  truthy (Some "") = false.
Proof.
  destruct (buildVersionUrl_injective
              (Some "linux-x64-") (Some "stable")
              (mkDescriptor "stable" "linux" "x64" (Some ""))
              (Some "linux-x64") (Some "stable")
              (mkDescriptor "stable" "linux" "x64" None))
    as (Hq & _ & _ & [Ht | [Ht _]]).
  - vm_compute. reflexivity.
  - vm_compute. reflexivity.
  - vm_compute. reflexivity.
  - discriminate Ht.
  - split; [exact Hq|exact Ht].
Defined.

(** ** More of the handler (lines 115-156) *)

(** X6: the remote store is contacted at most once per request, and exactly
    when the request passes the method check, its URL parses and the platform
    and quality resolve; the one URL fetched is [buildVersionUrl] of the
    resolved descriptor.  Rejected, malformed and invalid requests fetch
    nothing. *)
Theorem fetches_exactly_when_valid env req :
  (forall params input,
      method_allowed req = true -> searchParams req = Some params ->
      validateInput (get params "platform") (get params "quality") = Some input ->
      requests (run env req) = [buildVersionUrl input]) /\
  (method_allowed req = false \/ searchParams req = None \/
   (exists params, searchParams req = Some params /\
      validateInput (get params "platform") (get params "quality") = None) ->
   requests (run env req) = []) /\
  (length (requests (run env req)) <= 1)%nat.
Proof.
  split; [|split].
  - intros params input Hgate Hurl Hval.
    rewrite (run_valid _ _ _ _ Hgate Hurl Hval). reflexivity.
  - destruct (run_cases env req)
      as [(Hg & ->) | [(Hg & Hu & ->) | [(ps & Hg & Hu & Hv & ->)
         | [(ps & input & Hg & Hu & Hv & Hd & ->)
         | (ps & input & Hg & Hu & Hv & Hd & [(Ht & ->) | (Ht & ->)])]]]];
      try reflexivity; intros [H | [H | (ps' & H & H')]]; congruence.
  - destruct (run_cases env req)
      as [(Hg & ->) | [(Hg & Hu & ->) | [(ps & Hg & Hu & Hv & ->)
         | [(ps & input & Hg & Hu & Hv & Hd & ->)
         | (ps & input & Hg & Hu & Hv & Hd & [(Ht & ->) | (Ht & ->)])]]]]; simpl; lia.
Qed.

Lemma fetches_exactly_when_valid_witness :
  requests (run (remote_with NetworkFault) (get_request "darwin" "stable" "c0"))
  = ["https://raw.githubusercontent.com/aphrcwaro/datasuite_public/main/stable/darwin/x64/latest.json"].
Proof.
  refine (proj1 (fetches_exactly_when_valid (remote_with NetworkFault)
                   (get_request "darwin" "stable" "c0"))
            [("platform", "darwin"); ("quality", "stable"); ("commit", "c0")]
            (mkDescriptor "stable" "darwin" "x64" None) _ _ _).
  all: vm_compute; reflexivity.
Defined.

(** X7: every run returns normally and ends the response, with one of the
    statuses 200, 204, 404, 405 and 500.  The 204 and 404 responses have an
    empty body and no [Content-Type]; the 200, 405 and 500 responses are
    declared [application/json; charset=utf-8]. *)
Theorem response_always_ended env req :
  fst (handler env req fresh) = Returned tt /\
  finished (respond env req) = true /\
  (statusCode (respond env req) = 204%Z \/ statusCode (respond env req) = 404%Z ->
   body (respond env req) = "" /\
   headers (respond env req) !! "Content-Type" = None) /\
  (statusCode (respond env req) = 200%Z \/ statusCode (respond env req) = 405%Z
   \/ statusCode (respond env req) = 500%Z ->
   headers (respond env req) !! "Content-Type"
     = Some "application/json; charset=utf-8") /\
  statusCode (respond env req) ∈ [200; 204; 404; 405; 500]%Z.
Proof.
  split; [apply handler_returns|].
  destruct (respond_cases env req)
    as [-> | [-> | [-> | [-> | [[latest ->] | ->]]]]].
  - split; [reflexivity|]. split; [intros [H | H]; discriminate H|].
    split; [intros _; reflexivity|]. set_solver.
  - split; [reflexivity|]. split; [intros [H | H]; discriminate H|].
    split; [intros _; reflexivity|]. set_solver.
  - split; [reflexivity|]. split; [intros _; split; reflexivity|].
    split; [intros [H | [H | H]]; discriminate H|]. set_solver.
  - split; [reflexivity|]. split; [intros _; split; reflexivity|].
    split; [intros [H | [H | H]]; discriminate H|]. set_solver.
  - split; [reflexivity|]. split; [intros [H | H]; discriminate H|].
    split; [intros _; apply content_type_update|]. set_solver.
  - split; [reflexivity|]. split; [intros [H | H]; discriminate H|].
    split; [intros _; reflexivity|]. set_solver.
Qed.

Lemma response_always_ended_witness :
  body (respond (remote_with NetworkFault) (get_request "beos" "stable" "c0")) = "".
Proof.
  refine (proj1 (proj1 (proj2 (proj2
    (response_always_ended (remote_with NetworkFault)
       (get_request "beos" "stable" "c0")))) _)).
  right. vm_compute. reflexivity.
Defined.

(** X8: an invalid request is answered with a bare 404.  When the quality or
    the platform parameter is missing, or the two do not resolve, the
    response has status 404, an empty body and no header at all; nothing is
    fetched and nothing is logged. *)
Theorem invalid_input_is_silent_404 env req params :
  method_allowed req = true ->
  searchParams req = Some params ->
  get params "quality" = None \/ get params "platform" = None \/
  validateInput (get params "platform") (get params "quality") = None ->
  statusCode (respond env req) = 404%Z /\
  body (respond env req) = "" /\
  headers (respond env req) = ∅ /\
  requests (run env req) = [] /\
  console (run env req) = [].
Proof.
  intros Hgate Hurl Hbad.
  assert (validateInput (get params "platform") (get params "quality") = None)
    as Hval.
  { destruct Hbad as [-> | [-> | Hval]]; [reflexivity| |exact Hval].
    unfold validateInput. destruct (_ || _); reflexivity. }
  unfold respond. rewrite (run_invalid _ _ _ Hgate Hurl Hval). repeat split.
Qed.

Lemma invalid_input_is_silent_404_witness :
  statusCode (respond (remote_with NetworkFault)
                {| method := Some "GET";
                   searchParams := Some [("platform", "win32")] |}) = 404%Z.
Proof.
  refine (proj1 (invalid_input_is_silent_404 (remote_with NetworkFault)
                   {| method := Some "GET";
                      searchParams := Some [("platform", "win32")] |}
                   [("platform", "win32")] _ _ _)).
  - reflexivity.
  - reflexivity.
  - left. reflexivity.
Defined.

(** X9: when the request URL cannot be read, the handler answers 500 with
    the body [{"error":"Internal Server Error"}] declared as JSON, and
    fetches nothing.  One line goes to [console.error] unless [NODE_ENV] is
    [production], in which case nothing is logged. *)
Theorem url_fault_is_500 env req :
  method_allowed req = true ->
  searchParams req = None ->
  statusCode (respond env req) = 500%Z /\
  body (respond env req) = error_body "Internal Server Error" /\
  headers (respond env req) !! "Content-Type"
    = Some "application/json; charset=utf-8" /\
  requests (run env req) = [] /\
  (NODE_ENV env = Some "production" -> console (run env req) = []) /\
  (NODE_ENV env <> Some "production" ->
   console (run env req) = ["Update API error:"]).
Proof.
  intros Hgate Hurl. unfold respond. rewrite (run_url_fault _ _ Hgate Hurl).
  simpl. split; [reflexivity|]. split; [vm_compute; reflexivity|].
  split; [reflexivity|]. split; [reflexivity|].
  split; intros Hprod.
  - rewrite bool_decide_eq_true_2 by exact Hprod. reflexivity.
  - rewrite bool_decide_eq_false_2 by exact Hprod. reflexivity.
Qed.

Lemma url_fault_is_500_witness :
  statusCode (respond {| NODE_ENV := None; fetch := fun _ _ => NetworkFault; stack_spare := 1000 |}
                {| method := None; searchParams := None |}) = 500%Z /\
  console (run {| NODE_ENV := None; fetch := fun _ _ => NetworkFault; stack_spare := 1000 |}
             {| method := None; searchParams := None |})
  = ["Update API error:"].
Proof.
  destruct (url_fault_is_500 {| NODE_ENV := None; fetch := fun _ _ => NetworkFault; stack_spare := 1000 |}
              {| method := None; searchParams := None |})
    as (Hstatus & _ & _ & _ & _ & Hlog); [reflexivity|reflexivity|].
  split; [exact Hstatus|]. apply Hlog. discriminate.
Defined.

(** X10: diagnostics stay out of the response.  Something is written to the
    console only on the 500 path and only outside production, and the
    response itself is the same whatever [NODE_ENV] is. *)
Theorem console_only_on_fault env req :
  (console (run env req) <> [] ->
   statusCode (respond env req) = 500%Z /\ NODE_ENV env <> Some "production") /\
  (forall mode,
      respond {| NODE_ENV := mode; fetch := fetch env;
                 stack_spare := stack_spare env |} req
      = respond env req).
Proof.
  split.
  - unfold respond. destruct (run_cases env req)
      as [(Hg & ->) | [(Hg & Hu & ->) | [(ps & Hg & Hu & Hv & ->)
         | [(ps & input & Hg & Hu & Hv & Hd & ->)
         | (ps & input & Hg & Hu & Hv & Hd & [(Ht & ->) | (Ht & ->)])]]]];
      simpl; try congruence;
      intros Hlog; (split; [reflexivity|]); intros Hprod;
      rewrite bool_decide_eq_true_2 in Hlog by exact Hprod; congruence.
  - intros mode. unfold respond.
    destruct (method_allowed req) eqn:Hg;
      [|rewrite !(run_method_rejected _ _ Hg); reflexivity].
    destruct (searchParams req) as [ps|] eqn:Hu;
      [|rewrite !(run_url_fault _ _ Hg Hu); reflexivity].
    destruct (validateInput (get ps "platform") (get ps "quality"))
      as [input|] eqn:Hv.
    + rewrite !(run_valid _ _ _ _ Hg Hu Hv). reflexivity.
    + rewrite !(run_invalid _ _ _ Hg Hu Hv). reflexivity.
Qed.

Lemma console_only_on_fault_witness :
  statusCode (respond {| NODE_ENV := None; fetch := fun _ _ => NetworkFault; stack_spare := 1000 |}
                {| method := None; searchParams := None |}) = 500%Z.
Proof.
  refine (proj1 (proj1 (console_only_on_fault
                          {| NODE_ENV := None; fetch := fun _ _ => NetworkFault; stack_spare := 1000 |}
                          {| method := None; searchParams := None |}) _)).
  vm_compute. discriminate.
Defined.

(** X11: the response depends on the remote store only through the one URL
    of the resolved descriptor, requested with [Accept: application/json]:
    replacing the store by any other that agrees there, and [NODE_ENV] by
    anything, gives the same response. *)
Theorem remote_read_only_at_the_url env mode store req :
  (forall params input,
      searchParams req = Some params ->
      validateInput (get params "platform") (get params "quality") = Some input ->
      fetch env (buildVersionUrl input) [("Accept", "application/json")]
      = store (buildVersionUrl input) [("Accept", "application/json")]) ->
  respond env req
  = respond {| NODE_ENV := mode; fetch := store;
               stack_spare := stack_spare env |} req.
Proof.
  intros Hsame. unfold respond.
  destruct (method_allowed req) eqn:Hg;
    [|rewrite !(run_method_rejected _ _ Hg); reflexivity].
  destruct (searchParams req) as [ps|] eqn:Hu;
    [|rewrite !(run_url_fault _ _ Hg Hu); reflexivity].
  destruct (validateInput (get ps "platform") (get ps "quality"))
    as [input|] eqn:Hv.
  - rewrite !(run_valid _ _ _ _ Hg Hu Hv). simpl fetch. simpl stack_spare.
    rewrite (Hsame _ _ eq_refl Hv). reflexivity.
  - rewrite !(run_invalid _ _ _ Hg Hu Hv). reflexivity.
Qed.

Lemma remote_read_only_at_the_url_witness :
  respond (remote_with NetworkFault) (get_request "darwin" "stable" "c0")
  = respond {| NODE_ENV := Some "development";
               fetch := fun url _ =>
                          if String.eqb url (buildVersionUrl
                                               (mkDescriptor "stable" "darwin" "x64" None))
                          then NetworkFault
                          else HttpResponse 200 (Parsed (JObj []));
               stack_spare := stack_spare (remote_with NetworkFault) |}
      (get_request "darwin" "stable" "c0").
Proof.
  apply remote_read_only_at_the_url. intros params input Hparams Hinput.
  injection Hparams as <-. vm_compute in Hinput. injection Hinput as <-.
  vm_compute. reflexivity.
Defined.

(** X12: requests that resolve to the same descriptor and carry the same
    commit are served identically: same response, same URL fetched.  So
    [win32], [win32-ia32] and [win32-ia32-system] are interchangeable. *)
Theorem same_descriptor_same_run env req req' params params' :
  method_allowed req = true -> method_allowed req' = true ->
  searchParams req = Some params -> searchParams req' = Some params' ->
  validateInput (get params "platform") (get params "quality")
  = validateInput (get params' "platform") (get params' "quality") ->
  get params "commit" = get params' "commit" ->
  run env req = run env req'.
Proof.
  intros Hg Hg' Hu Hu' Hsame Hcommit.
  destruct (validateInput (get params' "platform") (get params' "quality"))
    as [input|] eqn:Hv'.
  - rewrite (run_valid _ _ _ _ Hg Hu Hsame), (run_valid _ _ _ _ Hg' Hu' Hv').
    rewrite Hcommit. reflexivity.
  - rewrite (run_invalid _ _ _ Hg Hu Hsame), (run_invalid _ _ _ Hg' Hu' Hv').
    reflexivity.
Qed.

Lemma same_descriptor_same_run_witness :
  run (remote_with NetworkFault) (get_request "win32" "stable" "c0")
  = run (remote_with NetworkFault) (get_request "win32-ia32-system" "stable" "c0").
Proof.
  apply (same_descriptor_same_run (remote_with NetworkFault)
           (get_request "win32" "stable" "c0")
           (get_request "win32-ia32-system" "stable" "c0")
           [("platform", "win32"); ("quality", "stable"); ("commit", "c0")]
           [("platform", "win32-ia32-system"); ("quality", "stable");
            ("commit", "c0")]).
  all: vm_compute; reflexivity.
Defined.

(** ** More of getLatestJSON (lines 47-68) *)

Lemma fetched_record_inv o :
  fetched_record o <> JNull ->
  exists status,
    o = HttpResponse status (Parsed (fetched_record o)) /\
    ok status = true /\
    is_primitive (fetched_record o) = false /\
    truthy_json (fetched_record o) = true.
Proof.
  destruct o as [|status [|d]]; simpl; try congruence.
  - destruct (ok status); congruence.
  - destruct (ok status) eqn:Hok; [|congruence].
    destruct d as [|b|text|s|items|fields]; simpl.
    + congruence.
    + destruct b; simpl; congruence.
    + destruct (negb _); simpl; congruence.
    + destruct (truthy (Some s)); simpl; congruence.
    + intros _. exists status. auto.
    + intros _. exists status. auto.
Qed.

(** X13: [getLatestJSON] absorbs every failure.  From any state it returns
    normally, having issued exactly one request and left the response and
    the console untouched; what it returns is null or a value of JavaScript
    type object, and it is not null only when the store answered with a
    success status and that very value as parsed body. *)
Theorem getLatestJSON_absorbs env input w :
  exists j,
    getLatestJSON env input w
    = (Returned j,
       {| res := res w;
          requests := (requests w ++ [buildVersionUrl input])%list;
          console := console w |}) /\
    (j = JNull \/ is_primitive j = false) /\
    (j <> JNull ->
     exists status,
       fetch env (buildVersionUrl input) [("Accept", "application/json")]
       = HttpResponse status (Parsed j) /\ ok status = true).
Proof.
  exists (fetched_record
            (fetch env (buildVersionUrl input) [("Accept", "application/json")])).
  split; [apply getLatestJSON_returns|].
  split.
  - pose proof (fetched_record_inv
                    (fetch env (buildVersionUrl input)
                       [("Accept", "application/json")])) as Hinv.
    destruct (fetched_record _); [left; reflexivity|right..];
      destruct Hinv as (status & _ & _ & Hobj & _); (discriminate || exact Hobj).
  - intros Hrec. destruct (fetched_record_inv _ Hrec) as (status & Ho & Hok & _).
    exists status. split; [exact Ho|exact Hok].
Qed.

Lemma getLatestJSON_absorbs_witness :
  exists j,
    getLatestJSON (remote_with (HttpResponse 503 Malformed))
      (mkDescriptor "stable" "linux" "x64" None) fresh
    = (Returned j,
       {| res := res fresh;
          requests := (requests fresh
                       ++ [buildVersionUrl (mkDescriptor "stable" "linux" "x64" None)])%list;
          console := console fresh |}).
Proof.
  destruct (getLatestJSON_absorbs (remote_with (HttpResponse 503 Malformed))
              (mkDescriptor "stable" "linux" "x64" None) fresh)
    as (j & Hrun & _).
  exists j. exact Hrun.
Defined.

(** ** The decision between 204 and 200 (lines 144-149) *)

Lemma stringify_record_nonempty latest :
  is_primitive latest = false -> JSON_text latest <> "".
Proof. destruct latest; try discriminate; intros _; simpl; discriminate. Qed.

(** X14: a 200 is only ever sent with a record behind it.  If the status is
    200, the request passed the method check and resolved, the store
    answered with a success status and a parsed value of type object whose
    version differs from the commit, and the body is the non-empty
    serialization of that value. *)
Theorem ok_only_with_a_newer_record env req :
  statusCode (respond env req) = 200%Z ->
  exists params input status latest,
    method_allowed req = true /\
    searchParams req = Some params /\
    validateInput (get params "platform") (get params "quality") = Some input /\
    fetch env (buildVersionUrl input) [("Accept", "application/json")]
    = HttpResponse status (Parsed latest) /\
    ok status = true /\
    is_primitive latest = false /\
    strict_eq (get params "commit") (version_of latest) = false /\
    body (respond env req) = JSON_text latest /\
    body (respond env req) <> "" /\
    JSON_stringify (stack_spare env) latest = Some (body (respond env req)).
Proof.
  unfold respond.
  destruct (run_cases env req)
    as [(Hg & ->) | [(Hg & Hu & ->) | [(ps & Hg & Hu & Hv & ->)
         | [(ps & input & Hg & Hu & Hv & Hd & ->)
         | (ps & input & Hg & Hu & Hv & Hd & [(Ht & ->) | (Ht & ->)])]]]];
    simpl; try discriminate.
  intros _. apply orb_false_iff in Hd as [Htruthy Hneq].
  apply negb_false_iff in Htruthy.
  assert (fetched_record
            (fetch env (buildVersionUrl input) [("Accept", "application/json")])
          <> JNull) as Hrec
    by (intros E; rewrite E in Htruthy; discriminate).
  destruct (fetched_record_inv _ Hrec) as (status & Ho & Hok & Hobj & _).
  exists ps, input, status,
    (fetched_record
       (fetch env (buildVersionUrl input) [("Accept", "application/json")])).
  repeat split; try assumption.
  apply stringify_record_nonempty, Hobj.
Qed.

Lemma ok_only_with_a_newer_record_witness :
  exists params input status latest,
    method_allowed (get_request "linux-x64" "stable" "c0") = true /\
    searchParams (get_request "linux-x64" "stable" "c0") = Some params /\
    validateInput (get params "platform") (get params "quality") = Some input /\
    fetch (remote_with (HttpResponse 200 (Parsed (JObj [("version", JStr "c1")]))))
      (buildVersionUrl input) [("Accept", "application/json")]
    = HttpResponse status (Parsed latest) /\
    ok status = true /\
    is_primitive latest = false /\
    strict_eq (get params "commit") (version_of latest) = false /\
    body (respond
            (remote_with (HttpResponse 200 (Parsed (JObj [("version", JStr "c1")]))))
            (get_request "linux-x64" "stable" "c0")) = JSON_text latest /\
    body (respond
            (remote_with (HttpResponse 200 (Parsed (JObj [("version", JStr "c1")]))))
            (get_request "linux-x64" "stable" "c0")) <> "" /\
    JSON_stringify
      (stack_spare
         (remote_with (HttpResponse 200 (Parsed (JObj [("version", JStr "c1")])))))
      latest
    = Some (body (respond
                    (remote_with (HttpResponse 200 (Parsed (JObj [("version", JStr "c1")]))))
                    (get_request "linux-x64" "stable" "c0"))).
Proof.
  apply (ok_only_with_a_newer_record
           (remote_with (HttpResponse 200 (Parsed (JObj [("version", JStr "c1")]))))
           (get_request "linux-x64" "stable" "c0")).
  vm_compute. reflexivity.
Defined.

(** X15: with a commit in the request and a record from the store, the
    answer is 204 exactly when the record's version is a string equal to the
    commit.  A version that is missing, or a number, null or any other
    non-string value, never matches: the record is then sent with 200 when
    [JSON.stringify] serialises it, and the answer is 500 when it throws. *)
Theorem commit_matches_only_a_string_version
    env req params input status latest c :
  method_allowed req = true ->
  searchParams req = Some params ->
  validateInput (get params "platform") (get params "quality") = Some input ->
  fetch env (buildVersionUrl input) [("Accept", "application/json")]
    = HttpResponse status (Parsed latest) ->
  ok status = true ->
  is_primitive latest = false ->
  get params "commit" = Some c ->
  (statusCode (respond env req) = 204%Z <-> version_of latest = Some (JStr c)) /\
  (version_of latest <> Some (JStr c) ->
   (forall text,
       JSON_stringify (stack_spare env) latest = Some text ->
       statusCode (respond env req) = 200%Z /\ body (respond env req) = text) /\
   (JSON_stringify (stack_spare env) latest = None ->
    statusCode (respond env req) = 500%Z)).
Proof.
  intros Hgate Hurl Hval Hfetch Hok Hobj Hcommit.
  destruct (fetched_record_object status latest Hok Hobj) as [Hrec Htruthy].
  unfold respond. rewrite (run_valid _ _ _ _ Hgate Hurl Hval), Hfetch, Hrec.
  cbv zeta. simpl res. rewrite Htruthy, Hcommit.
  destruct (strict_eq (Some c) (version_of latest)) eqn:Heq; simpl.
  - apply strict_eq_spec in Heq as [(c' & Hc & Hv) | (Hc & _)]; [|discriminate Hc].
    injection Hc as <-. split; [split; [intros _; exact Hv|reflexivity]|].
    intros Hne. contradiction.
  - assert (version_of latest <> Some (JStr c)) as Hne.
    { intros Hv. rewrite Hv in Heq. simpl in Heq.
      rewrite String.eqb_refl in Heq. discriminate. }
    split.
    + split; [|intros Hv; contradiction].
      destruct (JSON_stringify _ _); discriminate.
    + intros _. split.
      * intros text Htext. rewrite Htext.
        apply JSON_stringify_Some in Htext as ->. split; reflexivity.
      * intros Hthrow. rewrite Hthrow. reflexivity.
Qed.

Lemma commit_matches_only_a_string_version_witness :
  statusCode
    (respond (remote_with (HttpResponse 200 (Parsed (JObj [("version", JNum "7")]))))
       (get_request "linux-x64" "stable" "7")) = 200%Z.
Proof.
  refine (proj1 (proj1 (proj2
    (commit_matches_only_a_string_version
       (remote_with (HttpResponse 200 (Parsed (JObj [("version", JNum "7")]))))
       (get_request "linux-x64" "stable" "7")
       [("platform", "linux-x64"); ("quality", "stable"); ("commit", "7")]
       (mkDescriptor "stable" "linux" "x64" None)
       200%Z (JObj [("version", JNum "7")]) "7"
       eq_refl eq_refl eq_refl eq_refl eq_refl eq_refl eq_refl) _)
    (JSON_text (JObj [("version", JNum "7")])) eq_refl)).
  discriminate.
Defined.

(** X16: 405 is the answer exactly to the requests whose method is a
    non-empty string other than [GET] (the comparison is exact, so [get] is
    rejected too); a request without a method is handled like a GET. *)
Theorem status_405_iff env req :
  statusCode (respond env req) = 405%Z <->
  exists m, method req = Some m /\ m <> "" /\ m <> "GET".
Proof.
  split.
  - unfold respond. destruct (run_cases env req)
      as [(Hg & ->) | [(Hg & Hu & ->) | [(ps & Hg & Hu & Hv & ->)
         | [(ps & input & Hg & Hu & Hv & Hd & ->)
         | (ps & input & Hg & Hu & Hv & Hd & [(Ht & ->) | (Ht & ->)])]]]];
      simpl; try discriminate.
    intros _. unfold method_allowed in Hg. apply negb_false_iff in Hg.
    apply andb_true_iff in Hg as [Hm Hget].
    destruct (method req) as [[|c m]|]; try discriminate Hm.
    exists (String c m). split; [reflexivity|]. split; [discriminate|].
    intros E. rewrite E in Hget. discriminate Hget.
  - intros (m & Hm & Hne & Hget). unfold respond.
    rewrite (run_method_rejected env req (method_check_rejects req m Hm Hne Hget)).
    reflexivity.
Qed.

Lemma status_405_iff_witness :
  statusCode (respond (remote_with NetworkFault)
                {| method := Some "get"; searchParams := None |}) = 405%Z.
Proof.
  apply (proj2 (status_405_iff (remote_with NetworkFault)
                  {| method := Some "get"; searchParams := None |})).
  exists "get". repeat split; discriminate.
Defined.

(** ** Which URL is fetched (lines 41-45 and 138) *)

Lemma validateInput_explicit o a t q :
  o = DARWIN \/ o = LINUX -> a ∈ ARCH -> q ∈ QUALITIES ->
  contains "-" t = false ->
  validateInput (Some (o +:+ "-" +:+ a +:+ "-" +:+ t)) (Some q)
  = Some {| quality := q; os := o; arch := a; type := Some t |}.
Proof.
  intros Ho Ha Hq Ht.
  destruct (enum_no_dash a) as [Had Hat]; [auto|].
  apply has_spec in Ha.
  assert (contains "-" o = false /\ truthy (Some o) = true /\ has OS o = true
          /\ String.eqb o WINDOWS = false) as (Hod & Hot & Hos & Hw)
    by (destruct Ho as [-> | ->]; repeat split; reflexivity).
  unfold validateInput.
  rewrite (quality_passes _ Hq), (truthy_app_l o _ Hot),
    (split_three o a t Hod Had Ht).
  change ([o; a; t] !! 0%nat) with (Some o).
  change ([o; a; t] !! 1%nat) with (Some a).
  change ([o; a; t] !! 2%nat) with (Some t).
  simpl. rewrite Hos, Hw, Hat. simpl.
  destruct (String.eqb o DARWIN); simpl; rewrite Ha; reflexivity.
Qed.

(** X17: on darwin and linux the third token of the platform string goes
    into the fetched URL as it is.  For a request [os-arch-t] with a valid
    quality and arch and any non-empty, dash-free [t], the one URL fetched is
    [<base>/<quality>/<os>/<arch>/<t>/latest.json]. *)
Theorem third_token_reaches_the_url env req params q o a t :
  method_allowed req = true ->
  searchParams req = Some params ->
  get params "quality" = Some q ->
  get params "platform" = Some (o +:+ "-" +:+ a +:+ "-" +:+ t) ->
  q ∈ QUALITIES -> o = DARWIN \/ o = LINUX -> a ∈ ARCH ->
  t <> "" -> contains "-" t = false ->
  requests (run env req)
  = [VERSION_BASE_URL +:+ "/" +:+ q +:+ "/" +:+ o +:+ "/" +:+ a +:+ "/" +:+ t
       +:+ "/latest.json"].
Proof.
  intros Hgate Hurl Hquality Hplatform Hq Ho Ha Hne Ht.
  pose proof (validateInput_explicit o a t q Ho Ha Hq Ht) as Hval.
  rewrite <- Hquality, <- Hplatform in Hval.
  rewrite (run_valid _ _ _ _ Hgate Hurl Hval). cbv zeta. simpl requests.
  rewrite buildVersionUrl_path. simpl.
  destruct t as [|c t]; [contradiction|]. reflexivity.
Qed.

Lemma third_token_reaches_the_url_witness :
  requests (run (remote_with NetworkFault) (get_request "linux-x64-.." "stable" "c0"))
  = [VERSION_BASE_URL +:+ "/" +:+ "stable" +:+ "/" +:+ "linux" +:+ "/" +:+ "x64"
       +:+ "/" +:+ ".." +:+ "/latest.json"].
Proof.
  apply (third_token_reaches_the_url (remote_with NetworkFault)
           (get_request "linux-x64-.." "stable" "c0")
           [("platform", "linux-x64-.."); ("quality", "stable"); ("commit", "c0")]
           "stable" "linux" "x64" "..").
  - reflexivity.
  - reflexivity.
  - reflexivity.
  - reflexivity.
  - apply elem_of_QUALITIES. right. reflexivity.
  - right. reflexivity.
  - apply elem_of_ARCH. right. right. reflexivity.
  - discriminate.
  - reflexivity.
Defined.

(** X18: a win32 descriptor always has a package type, so the URL fetched
    for Windows always has the four segments
    [<base>/<quality>/win32/<arch>/<type>/latest.json] with the type one of
    archive, user and system. *)
Theorem win32_url_has_a_type_segment p q d :
  validateInput p q = Some d -> os d = WINDOWS ->
  exists t,
    type d = Some t /\ t ∈ TYPES /\
    buildVersionUrl d
    = VERSION_BASE_URL +:+ "/" +:+ quality d +:+ "/win32/" +:+ arch d
        +:+ "/" +:+ t +:+ "/latest.json".
Proof.
  intros H Hw.
  destruct (validateInput_sound p q d H) as (_ & _ & _ & Hwin & _).
  destruct (Hwin Hw) as (t & Ht & Hin). exists t. repeat split; try assumption.
  rewrite buildVersionUrl_path, Ht, Hw.
  destruct (enum_no_dash t) as [_ Htt]; [auto|].
  destruct t as [|c t]; [discriminate Htt|]. reflexivity.
Qed.

Lemma win32_url_has_a_type_segment_witness :
  exists t,
    Some "system" = Some t /\ t ∈ TYPES /\
    buildVersionUrl (mkDescriptor "insider" "win32" "ia32" (Some "system"))
    = VERSION_BASE_URL +:+ "/" +:+ "insider" +:+ "/win32/" +:+ "ia32"
        +:+ "/" +:+ t +:+ "/latest.json".
Proof.
  apply (win32_url_has_a_type_segment (Some "win32") (Some "insider")
           (mkDescriptor "insider" "win32" "ia32" (Some "system"))).
  - vm_compute. reflexivity.
  - reflexivity.
Defined.
